(** * pytext/task/tasks.py: prediction formatting, ensemble training
      delegation and task configuration declarations

    A shallow embedding of the source file [pytext/task/tasks.py].

    - Python lists and tensors iterated by the formatters are [list]s, a
      0-dimensional integer tensor used as a list index is a [Z], a float is
      a primitive [float] where a concrete value is needed and a type
      parameter [Score] otherwise (the code never computes with scores).
    - A Python [dict] with string keys is a [gmap string _].
    - A generator is a finite lazy sequence [gen]: it yields records and then
      either stops or raises.
    - The objects [EnsembleTask.train_single_model] works on are mutable and
      shared by reference: sub-models live in a store indexed by object
      identity, and the methods of the data handler and of the trainer,
      which other modules define, are parameters of the development. *)

From Stdlib Require Import ZArith Floats.
From stdpp Require Import gmap strings list fin_maps functions.

Set Warnings "-inexact-float,-clear-no-such-hyp".
Set Default Proof Using "Type".

(** ** Python runtime: exceptions, results, indexing, generators *)

Inductive exn : Type :=
  | IndexError
  | KeyError
  | AssertionError.

Inductive result (A : Type) : Type :=
  | Ok (a : A)
  | Err (e : exn).
Arguments Ok {A} a.
Arguments Err {A} e.

(** [l[i]] on a Python list: a negative index counts from the end, anything
    outside [-len(l), len(l)) raises [IndexError]. *)
Definition list_getitem {A : Type} (l : list A) (i : Z) : result A :=
  let n := Z.of_nat (length l) in
  let j := if decide (i < 0)%Z then (i + n)%Z else i in
  if decide (0 ≤ j < n)%Z then
    match l !! Z.to_nat j with
    | Some x => Ok x
    | None => Err IndexError
    end
  else Err IndexError.

(** The indices for which [list_getitem] does not raise. *)
Definition valid_index {A : Type} (l : list A) (i : Z) : Prop :=
  (- Z.of_nat (length l) ≤ i < Z.of_nat (length l))%Z.

(** The position of the list that index [i] denotes. *)
Definition index_position {A : Type} (l : list A) (i : Z) : nat :=
  if decide (i < 0)%Z then Z.to_nat (i + Z.of_nat (length l)) else Z.to_nat i.

(** A generator run on finite inputs: the records it yields, in order, ended
    by normal exhaustion ([Stop]) or by an exception ([Raise]). *)
Inductive gen (A : Type) : Type :=
  | Stop
  | Raise (e : exn)
  | Yield (a : A) (rest : gen A).
Arguments Stop {A}.
Arguments Raise {A} e.
Arguments Yield {A} a rest.

(** What a consumer that iterates the generator to its end has received. *)
Fixpoint yielded {A : Type} (g : gen A) : list A :=
  match g with
  | Stop | Raise _ => []
  | Yield a rest => a :: yielded rest
  end.

(** How the iteration ended: [None] for exhaustion, [Some e] for a raise. *)
Fixpoint outcome {A : Type} (g : gen A) : option exn :=
  match g with
  | Stop => None
  | Raise e => Some e
  | Yield _ rest => outcome rest
  end.

(** [zip(a, b, c)] on lists: stops at the shortest. *)
Definition zip3 {A B C : Type} (a : list A) (b : list B) (c : list C)
  : list (A * B * C) :=
  zip (zip a b) c.

(** [{n: s for n, s in pairs}]: the pairs are inserted from left to right, so
    a later pair with the same key overwrites an earlier one. *)
Definition dict_comprehension {V : Type} (pairs : list (string * V))
  : gmap string V :=
  foldl (λ d p, <[p.1 := p.2]> d) ∅ pairs.

(** [m] maps each name to the last score zipped with it: the value under a
    name is the score at the last position of that name among the positions
    that have a score. *)
Definition keeps_last_score {V : Type} (names : list string) (scores : list V)
    (m : gmap string V) : Prop :=
  ∀ n v, m !! n = Some v ↔
    ∃ k, names !! k = Some n ∧ scores !! k = Some v ∧
         ∀ j, k < j → j < length scores → names !! j ≠ Some n.

(** ** Target metadata: [target_meta.vocab.itos] *)

Record Vocab : Type := { itos : list string }.
Record TargetMeta : Type := { vocab : Vocab }.

Module DatasetFieldName.
(** Modelled from the spec: the constant [DatasetFieldName.TOKEN_RANGE] of
    [pytext.common.constants], the key of "the context's token-range
    field". Only its being one fixed key matters below. *)
Definition TOKEN_RANGE : string := "token_range".
End DatasetFieldName.

(** The batch context: a dict from field names to per-example values. Only
    the token-range field is ever read, so the values are lists (one entry
    per example) of lists of token ranges. *)
Abbreviation BatchContext TokenRange :=
  (gmap string (list (list TokenRange))).

(** ** DocClassificationTask *)

Module DocClassificationTask.

(** The dict yielded for one example. *)
Record Record_ (Score : Type) : Type := {
  prediction : string;
  score : gmap string Score;
}.
Arguments prediction {Score} _.
Arguments score {Score} _.
Arguments Build_Record_ {Score} _ _.

Section format.
Context {Score TokenRange : Type}.

(** The body of the [for prediction, score in zip(predictions, scores)]
    loop, on the zipped pairs still to come. *)
Fixpoint format_loop (target_names : list string)
    (pairs : list (Z * list Score)) : gen (Record_ Score) :=
  match pairs with
  | [] => Stop
  | (prediction, score) :: pairs' =>
      let score_with_name := dict_comprehension (zip target_names score) in
      match list_getitem target_names prediction with
      | Err e => Raise e
      | Ok name =>
          Yield {| prediction := name; score := score_with_name |}
                (format_loop target_names pairs')
      end
  end.

Definition format_prediction (predictions : list Z)
    (scores : list (list Score)) (context : BatchContext TokenRange)
    (target_meta : TargetMeta) : gen (Record_ Score) :=
  let target_names := itos (vocab target_meta) in
  format_loop target_names (zip predictions scores).
End format.

End DocClassificationTask.

(** ** WordTaggingTask *)

Module WordTaggingTask.

(** The dict built for one token. *)
Record Record_ (Score TokenRange : Type) : Type := {
  prediction : string;
  score : gmap string Score;
  token_range : TokenRange;
}.
Arguments prediction {Score TokenRange} _.
Arguments score {Score TokenRange} _.
Arguments token_range {Score TokenRange} _.
Arguments Build_Record_ {Score TokenRange} _ _ _.

Section format.
Context {Score TokenRange : Type}.

(** The list comprehension over
    [zip(prediction, score, token_ranges)]: built eagerly, so a failing
    lookup discards the records of the whole example. *)
Fixpoint word_records (target_names : list string)
    (words : list (Z * list Score * TokenRange))
  : result (list (Record_ Score TokenRange)) :=
  match words with
  | [] => Ok []
  | (word_pred, word_score, token_range) :: words' =>
      match list_getitem target_names word_pred with
      | Err e => Err e
      | Ok name =>
          let r := {| prediction := name;
                      score := dict_comprehension (zip target_names word_score);
                      token_range := token_range |} in
          match word_records target_names words' with
          | Err e => Err e
          | Ok rs => Ok (r :: rs)
          end
      end
  end.

(** The body of the outer [for] loop, on the zipped examples to come. *)
Fixpoint format_loop (target_names : list string)
    (examples : list (list Z * list (list Score) * list TokenRange))
  : gen (list (Record_ Score TokenRange)) :=
  match examples with
  | [] => Stop
  | (prediction, score, token_ranges) :: examples' =>
      match word_records target_names (zip3 prediction score token_ranges) with
      | Err e => Raise e
      | Ok rs => Yield rs (format_loop target_names examples')
      end
  end.

Definition format_prediction (predictions : list (list Z))
    (scores : list (list (list Score))) (context : BatchContext TokenRange)
    (target_meta : TargetMeta) : gen (list (Record_ Score TokenRange)) :=
  let target_names := itos (vocab target_meta) in
  match context !! DatasetFieldName.TOKEN_RANGE with
  | None => Raise KeyError
  | Some all_token_ranges =>
      format_loop target_names (zip3 predictions scores all_token_ranges)
  end.
End format.

End WordTaggingTask.

(** ** JointTextTask *)

Module JointTextTask.

(** The combined dict [{"intent": ..., "slot": ...}]. *)
Record Record_ (Score TokenRange : Type) : Type := {
  intent : DocClassificationTask.Record_ Score;
  slot : list (WordTaggingTask.Record_ Score TokenRange);
}.
Arguments intent {Score TokenRange} _.
Arguments slot {Score TokenRange} _.
Arguments Build_Record_ {Score TokenRange} _ _.

Section format.
Context {Score TokenRange : Type}.

(** [for intent, slot in zip(g1, g2): yield {...}] on two generators:
    [zip] asks the first one for an item, then the second one, and stops
    (or fails) as soon as either does. *)
Fixpoint zip_loop (g1 : gen (DocClassificationTask.Record_ Score))
    (g2 : gen (list (WordTaggingTask.Record_ Score TokenRange)))
  : gen (Record_ Score TokenRange) :=
  match g1 with
  | Stop => Stop
  | Raise e => Raise e
  | Yield intent g1' =>
      match g2 with
      | Stop => Stop
      | Raise e => Raise e
      | Yield slot g2' =>
          Yield {| intent := intent; slot := slot |} (zip_loop g1' g2')
      end
  end.

Definition format_prediction (predictions : list Z * list (list Z))
    (scores : list (list Score) * list (list (list Score)))
    (context : BatchContext TokenRange) (target_meta : TargetMeta * TargetMeta)
  : gen (Record_ Score TokenRange) :=
  let '(doc_preds, word_preds) := predictions in
  let '(doc_scores, word_scores) := scores in
  let '(doc_target_meta, word_target_meta) := target_meta in
  zip_loop
    (DocClassificationTask.format_prediction
       doc_preds doc_scores context doc_target_meta)
    (WordTaggingTask.format_prediction
       word_preds word_scores context word_target_meta).
End format.

End JointTextTask.

(** The output the spec describes for the joint task: the outputs of the
    document-level and of the token-level formatter zipped "pairwise into a
    combined record with intent and slot keys". *)
Definition zip_intent_slot {Score TokenRange : Type}
    (intents : list (DocClassificationTask.Record_ Score))
    (slots : list (list (WordTaggingTask.Record_ Score TokenRange)))
  : list (JointTextTask.Record_ Score TokenRange) :=
  zip_with (λ i s, {| JointTextTask.intent := i; JointTextTask.slot := s |})
           intents slots.

(** ** EnsembleTask *)

Module EnsembleTask.

(** Identity of a sub-model object. Two entries of [self.model.models]
    holding the same identity are the same object. *)
Abbreviation ObjId := nat.

Section task.
Context {Model DataHandler Trainer MetricReporter TrainConfig
         Optimizer Scheduler TrainIter EvalIter TrainResult : Type}.

(** [self]: the ordered sub-models of [self.model.models], by reference.
    The other attributes ([trainer], [data_handler], [metric_reporter],
    [optimizer], [lr_scheduler]) are one object each; their state is in
    the [World]. *)
Record Self : Type := { models : list ObjId }.

(** A call made to a collaborator, with the arguments that tell calls
    apart. *)
Inductive Call : Type :=
  | Call_get_train_iter (rank world_size : Z)
  | Call_get_eval_iter
  | Call_train_single_model (train_iter : TrainIter) (eval_iter : EvalIter)
      (model : ObjId) (train_config : TrainConfig).

(** The mutable state the method can reach, and the calls made so far
    (oldest first). *)
Record World : Type := {
  model_state : ObjId → Model;
  trainer : Trainer;
  data_handler : DataHandler;
  metric_reporter : MetricReporter;
  optimizer : Optimizer;
  lr_scheduler : Scheduler;
  calls : list Call;
}.

(** What one call of the trainer's [train_single_model] leaves behind. *)
Record Trained : Type := {
  returned : TrainResult;
  trained_model : Model;
  trainer_after : Trainer;
  metric_reporter_after : MetricReporter;
  optimizer_after : Optimizer;
  lr_scheduler_after : Scheduler;
}.

(** Modelled from the spec: [DataHandler.get_train_iter(rank, world_size)]
    and [DataHandler.get_eval_iter()] of [pytext.data], which "consume"
    the handler and return "iterators over batches". *)
Variable get_train_iter : DataHandler → Z → Z → TrainIter * DataHandler.
Variable get_eval_iter : DataHandler → EvalIter * DataHandler.

(** Modelled from the spec: [Trainer.train_single_model(train_iter,
    eval_iter, model, metric_reporter, train_config, optimizer,
    lr_scheduler)] of [pytext.trainers]. It "mutates the targeted
    sub-model's parameters" and may update the objects it is handed; it
    holds no reference to the ensemble. *)
Variable trainer_train_single_model :
  Trainer → TrainIter → EvalIter → Model → MetricReporter → TrainConfig →
  Optimizer → Scheduler → Trained.

Definition log (c : Call) (w : World) : World :=
  {| model_state := model_state w; trainer := trainer w;
     data_handler := data_handler w; metric_reporter := metric_reporter w;
     optimizer := optimizer w; lr_scheduler := lr_scheduler w;
     calls := calls w ++ [c] |}.

Definition set_data_handler (dh : DataHandler) (w : World) : World :=
  {| model_state := model_state w; trainer := trainer w;
     data_handler := dh; metric_reporter := metric_reporter w;
     optimizer := optimizer w; lr_scheduler := lr_scheduler w;
     calls := calls w |}.

(** [def train_single_model(self, train_config, model_id, rank=0,
    world_size=1)]; an omitted optional argument is [None]. The
    arguments of the trainer call are evaluated from left to right
    before the call. *)
Definition train_single_model (self : Self) (train_config : TrainConfig)
    (model_id : Z) (rank world_size : option Z) (w : World)
  : result TrainResult * World :=
  let rank := default 0%Z rank in
  let world_size := default 1%Z world_size in
  if decide ((model_id >= 0)%Z ∧ (model_id < Z.of_nat (length (models self)))%Z) then
    let '(train_iter, dh1) := get_train_iter (data_handler w) rank world_size in
    let w1 := log (Call_get_train_iter rank world_size) (set_data_handler dh1 w) in
    let '(eval_iter, dh2) := get_eval_iter (data_handler w1) in
    let w2 := log Call_get_eval_iter (set_data_handler dh2 w1) in
    match list_getitem (models self) model_id with
    | Err e => (Err e, w2)
    | Ok m =>
        let t := trainer_train_single_model (trainer w2) train_iter eval_iter
                   (model_state w2 m) (metric_reporter w2) train_config
                   (optimizer w2) (lr_scheduler w2) in
        (Ok (returned t),
         {| model_state := <[m := trained_model t]> (model_state w2);
            trainer := trainer_after t;
            data_handler := data_handler w2;
            metric_reporter := metric_reporter_after t;
            optimizer := optimizer_after t;
            lr_scheduler := lr_scheduler_after t;
            calls := calls w2 ++
              [Call_train_single_model train_iter eval_iter m train_config] |})
    end
  else (Err AssertionError, w).

(** Whether a call of the trainer is in a log. *)
Definition is_train_call (c : Call) : bool :=
  match c with
  | Call_train_single_model _ _ _ _ => true
  | _ => false
  end.
End task.

End EnsembleTask.

(** A small concrete ensemble on which the method can be run: sub-models
    and handler states are counters, a training iterator is the partition
    (rank, world_size) it was asked for, the trainer adds one to the model
    it is handed and returns that model's old state plus the configuration
    number. *)
Module Counting.
Definition get_train_iter (dh : nat) (rank world_size : Z) : (Z * Z) * nat :=
  ((rank, world_size), S dh).

Definition get_eval_iter (dh : nat) : unit * nat := (tt, S dh).

Definition trainer_train_single_model (tr : nat) (train_iter : Z * Z)
    (eval_iter : unit) (model : nat) (reporter : unit) (train_config : nat)
    (optimizer scheduler : unit)
  : @EnsembleTask.Trained nat nat unit unit unit nat :=
  {| EnsembleTask.returned := model + train_config;
     EnsembleTask.trained_model := S model;
     EnsembleTask.trainer_after := S tr;
     EnsembleTask.metric_reporter_after := reporter;
     EnsembleTask.optimizer_after := optimizer;
     EnsembleTask.lr_scheduler_after := scheduler |}.

(** Three distinct sub-model objects 10, 11, 12. *)
Definition self : EnsembleTask.Self := {| EnsembleTask.models := [10; 11; 12] |}.

(** Every sub-model in state 7, nothing called yet. *)
Definition world : @EnsembleTask.World nat nat nat unit nat unit unit (Z * Z) unit :=
  {| EnsembleTask.model_state := λ _, 7;
     EnsembleTask.trainer := 0;
     EnsembleTask.data_handler := 0;
     EnsembleTask.metric_reporter := tt;
     EnsembleTask.optimizer := tt;
     EnsembleTask.lr_scheduler := tt;
     EnsembleTask.calls := [] |}.

Definition train_single_model :=
  EnsembleTask.train_single_model
    get_train_iter get_eval_iter trainer_train_single_model.
End Counting.

(** ** Task configuration declarations *)

Module TaskConfig.

(** A value a configuration field can hold: [None], the instance a
    zero-argument constructor call [Cls()] makes, or a value the caller
    built, told apart by a tag. *)
Inductive Value : Type :=
  | PyNone
  | Construct (cls : string)
  | Supplied (tag : string).

#[global] Instance Value_eq_dec : EqDecision Value.
Proof. solve_decision. Defined.

(** One annotated class attribute [name: annotation (= default)]. *)
Record FieldDecl : Type := {
  field_name : string;
  annotation : string;
  field_default : option Value;
}.

#[global] Instance FieldDecl_eq_dec : EqDecision FieldDecl.
Proof. solve_decision. Defined.

Definition required (name ann : string) : FieldDecl :=
  {| field_name := name; annotation := ann; field_default := None |}.
(** [name: Cls = Cls()] *)
Definition defaulted (name cls : string) : FieldDecl :=
  {| field_name := name; annotation := cls; field_default := Some (Construct cls) |}.
(** [name: ann = Cls()] with an annotation wider than the default's class *)
Definition defaulted_as (name ann cls : string) : FieldDecl :=
  {| field_name := name; annotation := ann; field_default := Some (Construct cls) |}.
(** [name: Optional[Cls] = None] *)
Definition optional (name cls : string) : FieldDecl :=
  {| field_name := name; annotation := "Optional[" +:+ cls +:+ "]";
     field_default := Some PyNone |}.

(** The [Config] classes of the file, in source order. *)
Inductive ConfigClass : Type :=
  | QueryDocumentPairwiseRankingTask_Config
  | EnsembleTask_Config
  | DocClassificationTask_Config
  | WordTaggingTask_Config
  | JointTextTask_Config
  | LMTask_Config
  | PairClassificationTask_Config
  | SeqNNTask_Config
  | ContextualIntentSlotTask_Config
  | SemanticParsingTask_Config
  | KDDocClassificationTask_Config.

Definition all_classes : list ConfigClass :=
  [ QueryDocumentPairwiseRankingTask_Config; EnsembleTask_Config;
    DocClassificationTask_Config; WordTaggingTask_Config;
    JointTextTask_Config; LMTask_Config; PairClassificationTask_Config;
    SeqNNTask_Config; ContextualIntentSlotTask_Config;
    SemanticParsingTask_Config; KDDocClassificationTask_Config ].

(** The attributes each class body declares, in declaration order. *)
Definition fields (c : ConfigClass) : list FieldDecl :=
  match c with
  | QueryDocumentPairwiseRankingTask_Config =>
      [ defaulted "features" "QueryDocumentPairwiseRanking.ModelInputConfig";
        defaulted "model" "QueryDocumentPairwiseRankingModel.Config";
        defaulted "data_handler" "QueryDocumentPairwiseRankingDataHandler.Config";
        defaulted "trainer" "Trainer.Config";
        optional "labels" "DocLabelConfig";
        defaulted "metric_reporter" "PairwiseRankingMetricReporter.Config" ]
  | EnsembleTask_Config =>
      [ required "model"
          "Union[BaggingDocEnsemble.Config, BaggingIntentSlotEnsemble.Config]";
        defaulted "trainer" "EnsembleTrainer.Config";
        required "labels" "List[TargetConfigBase]";
        defaulted_as "metric_reporter"
          "Union[ClassificationMetricReporter.Config, IntentSlotMetricReporter.Config]"
          "ClassificationMetricReporter.Config";
        defaulted "data_handler" "JointModelDataHandler.Config" ]
  | DocClassificationTask_Config =>
      [ defaulted "model" "DocModel.Config";
        defaulted "trainer" "Trainer.Config";
        defaulted "features" "DocClassification.ModelInputConfig";
        defaulted "labels" "DocClassification.TargetConfig";
        defaulted "data_handler" "DocClassificationDataHandler.Config";
        defaulted "metric_reporter" "ClassificationMetricReporter.Config" ]
  | WordTaggingTask_Config =>
      [ defaulted "model" "WordTaggingModel.Config";
        defaulted "trainer" "Trainer.Config";
        defaulted "labels" "WordLabelConfig";
        defaulted "data_handler" "JointModelDataHandler.Config";
        defaulted "metric_reporter" "WordTaggingMetricReporter.Config" ]
  | JointTextTask_Config =>
      [ required "labels" "List[TargetConfigBase]";
        defaulted "model" "JointModel.Config";
        defaulted "trainer" "Trainer.Config";
        defaulted "data_handler" "JointModelDataHandler.Config";
        defaulted "metric_reporter" "IntentSlotMetricReporter.Config" ]
  | LMTask_Config =>
      [ defaulted_as "data_handler"
          "Union[LanguageModelDataHandler.Config, BPTTLanguageModelDataHandler.Config]"
          "LanguageModelDataHandler.Config";
        defaulted "model" "LMLSTM.Config";
        defaulted "trainer" "Trainer.Config";
        optional "labels" "WordLabelConfig";
        defaulted "metric_reporter" "LanguageModelMetricReporter.Config" ]
  | PairClassificationTask_Config =>
      [ defaulted "features" "PairClassification.ModelInputConfig";
        defaulted "model" "PairClassificationModel.Config";
        defaulted "data_handler" "PairClassificationDataHandler.Config";
        defaulted "trainer" "Trainer.Config";
        defaulted "labels" "PairClassification.TargetConfig";
        defaulted "metric_reporter" "ClassificationMetricReporter.Config" ]
  | SeqNNTask_Config =>
      [ defaulted "model" "SeqNNModel.Config";
        defaulted "trainer" "Trainer.Config";
        defaulted "labels" "DocLabelConfig";
        defaulted "data_handler" "SeqModelDataHandler.Config";
        defaulted "metric_reporter" "ClassificationMetricReporter.Config" ]
  | ContextualIntentSlotTask_Config =>
      [ required "labels" "ContextualIntentSlot.TargetConfig";
        defaulted "features" "ContextualIntentSlot.ModelInputConfig";
        defaulted "model" "ContextualIntentSlotModel.Config";
        defaulted "trainer" "Trainer.Config";
        defaulted "data_handler" "ContextualIntentSlotModelDataHandler.Config";
        defaulted "metric_reporter" "IntentSlotMetricReporter.Config" ]
  | SemanticParsingTask_Config =>
      [ defaulted "model" "RNNGParser.Config";
        defaulted "trainer" "HogwildTrainer.Config";
        defaulted "data_handler" "CompositionalDataHandler.Config";
        optional "labels" "WordLabelConfig";
        defaulted "metric_reporter" "CompositionalMetricReporter.Config" ]
  | KDDocClassificationTask_Config =>
      [ defaulted "model" "DocModel.Config";
        defaulted "trainer" "Trainer.Config";
        defaulted "features" "DocClassification.ModelInputConfig";
        defaulted "labels" "KDDocClassification.TargetConfig";
        defaulted "data_handler" "KDDocClassificationDataHandler.Config";
        defaulted "metric_reporter" "ClassificationMetricReporter.Config" ]
  end.

(** The names of the fields declared without a default. *)
Definition required_fields (c : ConfigClass) : list string :=
  field_name <$> filter (λ f, field_default f = None) (fields c).

(** The declarations of a class body (or of a base class) as Python holds
    them: by attribute name, the first declaration of a name standing. *)
Definition field_table (fs : list FieldDecl) : gmap string FieldDecl :=
  list_to_map ((λ f, (field_name f, f)) <$> fs).

Section construct.
(** The check that a supplied value matches one of "the declared acceptable
    shapes" of a field, given the field's annotation. [pytext.config]
    implements it; it is a parameter here. *)
Variable conforms : Value → string → bool.

(** The attributes that [Task.Config], which every class of the file
    extends, declares itself. [pytext.task] is not in the file; they are a
    parameter here. *)
Variable inherited : list FieldDecl.

(** The fields of a class: those its body declares and, for the names it
    does not declare again, those of the base class. *)
Definition all_fields (c : ConfigClass) : gmap string FieldDecl :=
  field_table (fields c) ∪ field_table inherited.

(** The base class adds no required field of its own: each of its fields
    is declared again by the class or has a default. *)
Definition base_shadowed (c : ConfigClass) : Prop :=
  Forall (λ f, (field_name f ∈ field_name <$> fields c) ∨
               is_Some (field_default f)) inherited.

(** The value a field gets: the keyword argument when there is one and it has
    an acceptable shape, the declared default when there is no keyword
    argument, nothing otherwise. *)
Definition field_value (kwargs : gmap string Value) (f : FieldDecl)
  : option Value :=
  match kwargs !! field_name f with
  | Some v => if conforms v (annotation f) then Some v else None
  | None => field_default f
  end.

(** Modelled from the spec: the keyword-argument constructor [Config(...)]
    that the base class [ConfigBase] of [pytext.config] gives to every
    class. "Omitting an optional field yields the documented default
    sub-configuration instance"; "construction fails (validation error) if a
    supplied sub-configuration does not match one of the declared acceptable
    shapes for that field, or if a required field is omitted". A keyword
    that names no field has no acceptable shape. [None] is a failed
    construction. *)
Definition construct (c : ConfigClass) (kwargs : gmap string Value)
  : option (gmap string Value) :=
  if decide (dom kwargs ⊆ dom (all_fields c) ∧
             map_Forall (λ _ f, is_Some (field_value kwargs f)) (all_fields c))
  then Some (omap (field_value kwargs) (all_fields c))
  else None.
End construct.

(** The fields the specification lists as having no safe default. *)
Definition documented_required (c : ConfigClass) : list string :=
  match c with
  | EnsembleTask_Config => ["model"; "labels"]
  | JointTextTask_Config => ["labels"]
  | ContextualIntentSlotTask_Config => ["labels"]
  | _ => []
  end.


(** A sample shape check, used to run the constructor: [None] fits an
    [Optional] annotation, any other value fits an annotation that mentions
    its class (or tag). *)
Definition shape_of (v : Value) : string :=
  match v with
  | PyNone => "Optional["
  | Construct cls => cls
  | Supplied tag => tag
  end.

Definition mentions (v : Value) (ann : string) : bool :=
  match String.index 0 (shape_of v) ann with
  | Some _ => true
  | None => false
  end.

(** A sample base class, after the spec's data model: the five components,
    none with a default. *)
Definition five_components : list FieldDecl :=
  [ required "model" "Model.Config";
    required "data_handler" "DataHandler.Config";
    required "trainer" "Trainer.Config";
    required "labels" "TargetConfigBase";
    required "metric_reporter" "MetricReporter.Config" ].
End TaskConfig.

(** * Properties *)

(** Discharges a [Forall] over a concrete list of concrete side conditions. *)
Ltac forall_concrete :=
  repeat (first [ apply Forall_nil_2 | apply Forall_cons_2 | split ]);
  unfold valid_index; simpl; lia.

(** ** List indexing *)

Lemma list_getitem_valid {A : Type} (l : list A) (i : Z) :
  valid_index l i →
  ∃ x, list_getitem l i = Ok x ∧ l !! index_position l i = Some x.
Proof.
  unfold valid_index, list_getitem, index_position. intros Hi.
  destruct (decide (i < 0)%Z) as [Hneg|Hpos].
  - rewrite decide_True by lia.
    destruct (lookup_lt_is_Some_2 l (Z.to_nat (i + Z.of_nat (length l))))
      as [x Hx]; [lia|].
    exists x. by rewrite Hx.
  - rewrite decide_True by lia.
    destruct (lookup_lt_is_Some_2 l (Z.to_nat i)) as [x Hx]; [lia|].
    exists x. by rewrite Hx.
Qed.

Lemma list_getitem_Ok {A : Type} (l : list A) (i : Z) (x : A) :
  list_getitem l i = Ok x →
  valid_index l i ∧ l !! index_position l i = Some x.
Proof.
  unfold valid_index, list_getitem, index_position.
  destruct (decide (i < 0)%Z) as [Hneg|Hpos]; case_decide; try done.
  - destruct (l !! _) eqn:Hl; [|done]. intros [= ->]. split; [lia|done].
  - destruct (l !! _) eqn:Hl; [|done]. intros [= ->]. split; [lia|done].
Qed.

Lemma list_getitem_Err {A : Type} (l : list A) (i : Z) (e : exn) :
  list_getitem l i = Err e → e = IndexError ∧ ¬ valid_index l i.
Proof.
  intros He. split.
  - unfold list_getitem in He. case_decide; [|congruence].
    destruct (l !! _); congruence.
  - intros Hv. destruct (list_getitem_valid l i Hv) as (x & Hx & _). congruence.
Qed.

Lemma index_position_nonneg {A : Type} (l : list A) (i : Z) :
  (0 ≤ i)%Z → index_position l i = Z.to_nat i.
Proof. intros Hi. unfold index_position. by rewrite decide_False by lia. Qed.

(** ** Dict comprehensions *)

Section dict.
Context {V : Type}.
Implicit Types (pairs : list (string * V)) (names : list string).

Lemma dict_comprehension_snoc pairs n v :
  dict_comprehension (pairs ++ [(n, v)]) = <[n := v]> (dict_comprehension pairs).
Proof. unfold dict_comprehension. by rewrite foldl_snoc. Qed.

(** The value under a key is the one of the last pair with that key. *)
Lemma dict_comprehension_lookup pairs n v :
  dict_comprehension pairs !! n = Some v ↔
  ∃ k, pairs !! k = Some (n, v) ∧
       ∀ j p, k < j → pairs !! j = Some p → p.1 ≠ n.
Proof.
  induction pairs as [|[n' v'] pairs IH] using rev_ind.
  { split; [done|]. by intros (k & Hk & _). }
  rewrite dict_comprehension_snoc. destruct (decide (n' = n)) as [->|Hne].
  - rewrite lookup_insert_eq. split.
    + intros [= ->]. exists (length pairs). split.
      * by rewrite lookup_app_r, Nat.sub_diag by lia.
      * intros j p Hj Hp. apply lookup_lt_Some in Hp.
        rewrite length_app in Hp. simpl in Hp. lia.
    + intros (k & Hk & Hlast).
      destruct (decide (k = length pairs)) as [->|Hk'].
      * rewrite lookup_app_r, Nat.sub_diag in Hk by lia. by simplify_eq/=.
      * assert (k < length pairs) as Hlt.
        { apply lookup_lt_Some in Hk. rewrite length_app in Hk.
          simpl in Hk. lia. }
        exfalso. apply (Hlast (length pairs) (n, v')); [done| |done].
        by rewrite lookup_app_r, Nat.sub_diag by lia.
  - rewrite lookup_insert_ne by done. rewrite IH. split.
    + intros (k & Hk & Hlast). exists k. split.
      * by apply lookup_app_l_Some.
      * intros j p Hj. rewrite lookup_app_Some.
        intros [Hp|[_ Hp]]; [by eapply Hlast|].
        apply list_lookup_singleton_Some in Hp as [_ <-]. done.
    + intros (k & Hk & Hlast). exists k.
      apply lookup_app_Some in Hk as [Hk|[Hge Hk]].
      * split; [done|]. intros j p Hj Hp. eapply Hlast; [done|].
        by apply lookup_app_l_Some.
      * apply list_lookup_singleton_Some in Hk as [_ Hk]. by simplify_eq.
Qed.

Lemma dict_comprehension_dom pairs :
  dom (dict_comprehension pairs) = list_to_set pairs.*1.
Proof.
  induction pairs as [|[n v] pairs IH] using rev_ind; [set_solver|].
  rewrite dict_comprehension_snoc, dom_insert_L, IH, fmap_app.
  rewrite list_to_set_app_L. simpl.
  rewrite (right_id_L ∅ (∪)). apply (comm_L (∪)).
Qed.
End dict.

(** A finite set built from a list has at most as many elements as the
    list, and as many only if the list has no repetition. *)
Lemma size_list_to_set_le (l : list string) :
  size (list_to_set l : gset string) ≤ length l.
Proof.
  induction l as [|x l IH]; [done|]. simpl.
  rewrite size_union_alt, size_singleton.
  assert (size (list_to_set l ∖ {[x]} : gset string) ≤ size (list_to_set l : gset string)).
  { apply subseteq_size. set_solver. }
  lia.
Qed.

Lemma size_list_to_set_NoDup (l : list string) :
  size (list_to_set l : gset string) = length l ↔ NoDup l.
Proof.
  split; [|apply size_list_to_set].
  induction l as [|x l IH]; [constructor|]. simpl. intros Hsz.
  pose proof (size_list_to_set_le l) as Hle.
  destruct (decide (x ∈ l)) as [Hin|Hnin].
  - assert ({[x]} ∪ list_to_set l = (list_to_set l : gset string)) as Heq
      by set_solver.
    rewrite Heq in Hsz. lia.
  - rewrite size_union in Hsz by set_solver.
    rewrite size_singleton in Hsz. constructor; [done|]. apply IH. lia.
Qed.

Section score_maps.
Context {Score : Type}.
Implicit Types (names : list string) (s : list Score).

(** The keys of [{n: s for n, s in zip(names, score)}] are the names that
    have a score. *)
Lemma score_map_dom names s :
  dom (dict_comprehension (zip names s)) = list_to_set (take (length s) names).
Proof.
  rewrite dict_comprehension_dom. f_equal.
  revert s. induction names as [|n names IH]; intros [|x s]; simpl; try done.
  by rewrite IH.
Qed.

Lemma score_map_size_le names s :
  size (dict_comprehension (zip names s)) ≤ length names.
Proof.
  rewrite <-size_dom, score_map_dom.
  etrans; [apply size_list_to_set_le|]. rewrite length_take. lia.
Qed.

Lemma score_map_size_NoDup names s :
  size (dict_comprehension (zip names s)) = length names → NoDup names.
Proof.
  rewrite <-size_dom, score_map_dom. intros Hsz.
  pose proof (size_list_to_set_le (take (length s) names)) as Hle.
  rewrite length_take in Hle.
  assert (take (length s) names = names) as Htake
    by (apply take_ge; lia).
  rewrite Htake in Hsz. by apply size_list_to_set_NoDup.
Qed.

Lemma score_map_size_dup names s :
  ¬ NoDup names → size (dict_comprehension (zip names s)) < length names.
Proof.
  intros Hdup. pose proof (score_map_size_le names s) as Hle.
  destruct (decide (size (dict_comprehension (zip names s)) = length names))
    as [Heq|Hne]; [|lia].
  by apply score_map_size_NoDup in Heq.
Qed.

(** The score under a name is the one zipped with the last position of
    that name among the scored positions. *)
Lemma score_map_lookup names s n v :
  dict_comprehension (zip names s) !! n = Some v ↔
  ∃ k, names !! k = Some n ∧ s !! k = Some v ∧
       ∀ j, k < j → j < length s → names !! j ≠ Some n.
Proof.
  rewrite dict_comprehension_lookup. split.
  - intros (k & Hk & Hlast). apply lookup_zip_with_Some in Hk
      as (n' & v' & [= <- <-] & Hn & Hv).
    exists k. split_and!; [done..|]. intros j Hkj Hj Hnj.
    destruct (lookup_lt_is_Some_2 s j Hj) as [vj Hvj].
    apply (Hlast j (n, vj)); [done| |done].
    apply lookup_zip_with_Some. eauto.
  - intros (k & Hn & Hv & Hlast). exists k. split.
    + apply lookup_zip_with_Some. eauto.
    + intros j [n' v'] Hkj Hp ?. simplify_eq/=.
      apply lookup_zip_with_Some in Hp as (? & ? & [= <- <-] & Hn' & Hv').
      apply (Hlast j); [done| |done]. by eapply lookup_lt_Some.
Qed.
End score_maps.

(** ** Document classification formatting *)

Section doc_format.
Context {Score : Type}.
Implicit Types (names : list string) (pairs : list (Z * list Score)).

(** The i-th record yielded comes from the i-th zipped pair. *)
Lemma doc_format_loop_lookup names pairs i r :
  yielded (DocClassificationTask.format_loop names pairs) !! i = Some r →
  ∃ p s, pairs !! i = Some (p, s) ∧
         list_getitem names p = Ok (DocClassificationTask.prediction r) ∧
         DocClassificationTask.score r = dict_comprehension (zip names s).
Proof.
  revert i. induction pairs as [|[p s] pairs IH]; intros i; simpl; [done|].
  destruct (list_getitem names p) as [name|e] eqn:Hget; simpl; [|done].
  destruct i as [|i]; simpl.
  - intros [= <-]. by exists p, s.
  - apply IH.
Qed.

(** The loop yields at most one record per pair. *)
Lemma doc_format_loop_length_le names pairs :
  length (yielded (DocClassificationTask.format_loop names pairs)) ≤ length pairs.
Proof.
  induction pairs as [|[p s] pairs IH]; simpl; [done|].
  destruct (list_getitem names p); simpl; lia.
Qed.

(** With valid indices the loop runs through all the pairs. *)
Lemma doc_format_loop_valid names pairs :
  Forall (λ ps, valid_index names ps.1) pairs →
  outcome (DocClassificationTask.format_loop names pairs) = None ∧
  length (yielded (DocClassificationTask.format_loop names pairs)) = length pairs.
Proof.
  induction 1 as [|[p s] pairs Hp _ [IH1 IH2]]; simpl; [done|].
  destruct (list_getitem_valid names p Hp) as (x & -> & _). simpl.
  by rewrite IH1, IH2.
Qed.

(** The only way the loop fails is a lookup with an invalid index. *)
Lemma doc_format_loop_raise names pairs e :
  outcome (DocClassificationTask.format_loop names pairs) = Some e →
  e = IndexError ∧ Exists (λ ps, ¬ valid_index names ps.1) pairs.
Proof.
  induction pairs as [|[p s] pairs IH]; simpl; [done|].
  destruct (list_getitem names p) as [name|e'] eqn:Hget; simpl.
  - intros He. destruct (IH He) as [-> Hex]. split; [done|].
    by apply Exists_cons_tl.
  - intros [= ->]. apply list_getitem_Err in Hget as [-> Hinv].
    split; [done|]. by apply Exists_cons_hd.
Qed.
End doc_format.

(** With valid indices and full-length score vectors, whether or not the
    vocabulary repeats a name: the formatter yields one record per zipped
    pair and ends normally; the i-th record names the vocabulary entry at
    the i-th predicted index, the keys of its score mapping are the
    vocabulary names, and the score under a name is the one at the last
    position of that name. *)
Lemma doc_format_prediction_last_scores {Score TokenRange : Type}
    (predictions : list Z) (scores : list (list Score))
    (context : BatchContext TokenRange) (target_meta : TargetMeta) :
  Forall (λ ps, valid_index (itos (vocab target_meta)) ps.1 ∧
                length ps.2 = length (itos (vocab target_meta)))
         (zip predictions scores) →
  outcome (DocClassificationTask.format_prediction
             predictions scores context target_meta) = None ∧
  length (yielded (DocClassificationTask.format_prediction
                     predictions scores context target_meta))
    = length (zip predictions scores) ∧
  ∀ i r,
    yielded (DocClassificationTask.format_prediction
               predictions scores context target_meta) !! i = Some r →
    ∃ p s,
      predictions !! i = Some p ∧ scores !! i = Some s ∧
      itos (vocab target_meta) !! index_position (itos (vocab target_meta)) p
        = Some (DocClassificationTask.prediction r) ∧
      dom (DocClassificationTask.score r) = list_to_set (itos (vocab target_meta)) ∧
      (∀ k n, itos (vocab target_meta) !! k = Some n →
              (∀ j, k < j → itos (vocab target_meta) !! j ≠ Some n) →
              DocClassificationTask.score r !! n = s !! k) ∧
      (NoDup (itos (vocab target_meta)) →
         size (DocClassificationTask.score r) = length (itos (vocab target_meta)) ∧
         ∀ k n, itos (vocab target_meta) !! k = Some n →
                DocClassificationTask.score r !! n = s !! k).
Proof.
  unfold DocClassificationTask.format_prediction.
  set (names := itos (vocab target_meta)). intros Hall.
  assert (Forall (λ ps : Z * list Score, valid_index names ps.1)
            (zip predictions scores)) as Hvalid.
  { revert Hall. apply Forall_impl. by intros ? [? _]. }
  destruct (doc_format_loop_valid names _ Hvalid) as [Hout Hlen].
  split_and!; [done..|]. intros i r Hr.
  apply doc_format_loop_lookup in Hr as (p & s & Hps & Hget & Hscore).
  rewrite Forall_lookup in Hall. destruct (Hall _ _ Hps) as [_ Hs]. simpl in Hs.
  apply lookup_zip_with_Some in Hps as (? & ? & [= <- <-] & Hp & Hsi).
  apply list_getitem_Ok in Hget as [_ Hname].
  assert (∀ k n, names !! k = Some n →
                 (∀ j, k < j → names !! j ≠ Some n) →
                 DocClassificationTask.score r !! n = s !! k) as Hlast.
  { intros k n Hk Hnolater. rewrite Hscore.
    destruct (lookup_lt_is_Some_2 s k) as [v Hv].
    { rewrite Hs. by eapply lookup_lt_Some. }
    rewrite Hv. apply score_map_lookup. exists k. split_and!; [done..|].
    intros j Hkj _. by apply Hnolater. }
  exists p, s. split_and!; try done.
  - rewrite Hscore, score_map_dom, Hs. by rewrite firstn_all.
  - intros Hnd. split.
    + rewrite <-size_dom, Hscore, score_map_dom, Hs, firstn_all.
      by apply size_list_to_set.
    + intros k n Hk. apply Hlast; [done|]. intros j Hkj Hj.
      pose proof (NoDup_lookup _ _ _ _ Hnd Hk Hj). lia.
Qed.

(** C1 (as stated, refuted). The vocabulary ["A","A"] with prediction index
    0 and scores [0.1,0.2]: the index is valid and the score vector has one
    entry per vocabulary element, yet the score mapping of the yielded
    record has a single entry for the two vocabulary elements, and the name
    at position 0 is mapped to 0.2, the score of position 1, not to its own
    score 0.1. *)
Lemma doc_format_prediction_duplicate_names_counterexample :
  Forall (λ ps : Z * list float,
            valid_index ["A"; "A"] ps.1 ∧ length ps.2 = length ["A"; "A"])
         (zip [0%Z] [[0.1; 0.2]%float]) ∧
  DocClassificationTask.format_prediction
    [0%Z] [[0.1; 0.2]%float] (∅ : BatchContext (Z * Z))
    {| vocab := {| itos := ["A"; "A"] |} |}
  = Yield {| DocClassificationTask.prediction := "A";
             DocClassificationTask.score := {[ "A" := 0.2%float ]} |} Stop ∧
  size ({[ "A" := 0.2%float ]} : gmap string float) ≠ length ["A"; "A"] ∧
  ["A"; "A"] !! 0 = Some "A" ∧
  [0.1; 0.2]%float !! 0 = Some 0.1%float ∧
  ({[ "A" := 0.2%float ]} : gmap string float) !! "A" = Some 0.2%float.
Proof.
  split_and!; try reflexivity.
  - repeat constructor; unfold valid_index; simpl; lia.
  - rewrite map_size_singleton. simpl. lia.
Qed.

(** C1 (amended). For every call of [DocClassificationTask.format_prediction]
    in which each prediction index is a valid index into the target
    vocabulary, each score vector has one entry per vocabulary name, and the
    vocabulary names are pairwise distinct, the formatter yields one record
    per zipped (prediction, score) pair and ends normally; the "prediction"
    field of the i-th record is the vocabulary name at the i-th predicted
    index, and its "score" field is a mapping containing exactly one entry
    per vocabulary name (its keys are the vocabulary names and it has as
    many entries as the vocabulary), each name mapped to the score at the
    name's position. For vocabulary ["POS","NEG"], prediction index 0 and
    scores [0.9,0.1] this is the record
    {"prediction": "POS", "score": {"POS": 0.9, "NEG": 0.1}}. *)
Theorem doc_format_prediction_names_and_scores {Score TokenRange : Type}
    (predictions : list Z) (scores : list (list Score))
    (context : BatchContext TokenRange) (target_meta : TargetMeta) :
  Forall (λ ps, valid_index (itos (vocab target_meta)) ps.1 ∧
                length ps.2 = length (itos (vocab target_meta)))
         (zip predictions scores) →
  NoDup (itos (vocab target_meta)) →
  outcome (DocClassificationTask.format_prediction
             predictions scores context target_meta) = None ∧
  length (yielded (DocClassificationTask.format_prediction
                     predictions scores context target_meta))
    = length (zip predictions scores) ∧
  ∀ i r,
    yielded (DocClassificationTask.format_prediction
               predictions scores context target_meta) !! i = Some r →
    ∃ p s,
      predictions !! i = Some p ∧ scores !! i = Some s ∧
      itos (vocab target_meta) !! index_position (itos (vocab target_meta)) p
        = Some (DocClassificationTask.prediction r) ∧
      dom (DocClassificationTask.score r) = list_to_set (itos (vocab target_meta)) ∧
      size (DocClassificationTask.score r) = length (itos (vocab target_meta)) ∧
      ∀ k n, itos (vocab target_meta) !! k = Some n →
             DocClassificationTask.score r !! n = s !! k.
Proof.
  intros Hall Hnd.
  destruct (doc_format_prediction_last_scores
              predictions scores context target_meta Hall)
    as (Hout & Hlen & Hrec).
  split_and!; [done..|]. intros i r Hr.
  destruct (Hrec i r Hr) as (p & s & Hp & Hs & Hname & Hdom & _ & Hdistinct).
  destruct (Hdistinct Hnd) as [Hsize Hscore].
  by exists p, s.
Qed.

(** The spec's example, derived from the theorem: the hypotheses hold for
    vocabulary ["POS","NEG"], prediction index 0 and scores [0.9,0.1], and
    the properties the theorem states determine the yielded record. *)
Lemma doc_format_prediction_names_and_scores_witness :
  Forall (λ ps : Z * list float,
            valid_index ["POS"; "NEG"] ps.1 ∧ length ps.2 = 2)
         (zip [0%Z] [[0.9; 0.1]%float]) ∧
  NoDup ["POS"; "NEG"] ∧
  yielded (DocClassificationTask.format_prediction
             [0%Z] [[0.9; 0.1]%float] (∅ : BatchContext (Z * Z))
             {| vocab := {| itos := ["POS"; "NEG"] |} |})
  = [ {| DocClassificationTask.prediction := "POS";
         DocClassificationTask.score :=
           <["POS" := 0.9%float]> (<["NEG" := 0.1%float]> ∅) |} ].
Proof.
  assert (Forall (λ ps : Z * list float,
                    valid_index ["POS"; "NEG"] ps.1 ∧ length ps.2 = 2)
                 (zip [0%Z] [[0.9; 0.1]%float])) as Hhyp.
  { repeat constructor; unfold valid_index; simpl; lia. }
  assert (NoDup ["POS"; "NEG"]) as Hnd by compute_done.
  split; [exact Hhyp|]. split; [exact Hnd|].
  destruct (doc_format_prediction_names_and_scores
              [0%Z] [[0.9; 0.1]%float] (∅ : BatchContext (Z * Z))
              {| vocab := {| itos := ["POS"; "NEG"] |} |} Hhyp Hnd)
    as (_ & Hlen & Hrec).
  destruct (yielded _) as [|r [|r' rs]]; simpl in Hlen; try discriminate.
  destruct (Hrec 0 r eq_refl) as (p & s & Hp & Hs & Hname & Hdom & _ & Hlast).
  simpl in *. injection Hp as <-. injection Hs as <-.
  destruct r as [name sc]. simpl in *. injection Hname as <-.
  f_equal. f_equal. apply map_eq. intros n.
  destruct (decide (n = "POS")) as [->|HnP].
  { by rewrite (Hlast 0 "POS" eq_refl), lookup_insert_eq. }
  rewrite lookup_insert_ne by done.
  destruct (decide (n = "NEG")) as [->|HnN].
  { by rewrite (Hlast 1 "NEG" eq_refl), lookup_insert_eq. }
  rewrite lookup_insert_ne, lookup_empty by done.
  apply not_elem_of_dom. rewrite Hdom. set_solver.
Defined.

(** ** Word tagging formatting *)

Lemma length_zip3 {A B C : Type} (a : list A) (b : list B) (c : list C) :
  length (zip3 a b c) = (length a `min` length b) `min` length c.
Proof. unfold zip3. by rewrite !length_zip. Qed.

Lemma lookup_zip3_Some {A B C : Type} (a : list A) (b : list B) (c : list C)
    (i : nat) (x : A) (y : B) (z : C) :
  zip3 a b c !! i = Some (x, y, z) ↔
  a !! i = Some x ∧ b !! i = Some y ∧ c !! i = Some z.
Proof. unfold zip3. rewrite !lookup_zip_Some. tauto. Qed.

(** Cutting every argument of [zip] to the length of the shortest one
    changes nothing. *)
Lemma zip_take_shortest {A B : Type} (a : list A) (b : list B) :
  zip (take (length a `min` length b) a) (take (length a `min` length b) b)
  = zip a b.
Proof. apply zip_with_take_both'; lia. Qed.

Lemma zip3_take_shortest {A B C : Type} (a : list A) (b : list B) (c : list C) :
  zip3 (take ((length a `min` length b) `min` length c) a)
       (take ((length a `min` length b) `min` length c) b)
       (take ((length a `min` length b) `min` length c) c)
  = zip3 a b c.
Proof.
  unfold zip3. rewrite <-zip_with_take.
  rewrite zip_with_take_both'; [done|rewrite length_zip; lia..].
Qed.

Section word_format.
Context {Score TokenRange : Type}.
Implicit Types (names : list string)
  (words : list (Z * list Score * TokenRange))
  (examples : list (list Z * list (list Score) * list TokenRange)).

(** A successful list comprehension has one record per zipped token, built
    from that token. *)
Lemma word_records_Ok names words rs :
  WordTaggingTask.word_records names words = Ok rs →
  length rs = length words ∧
  ∀ j r, rs !! j = Some r →
    ∃ wp ws tr, words !! j = Some (wp, ws, tr) ∧
      list_getitem names wp = Ok (WordTaggingTask.prediction r) ∧
      WordTaggingTask.score r = dict_comprehension (zip names ws) ∧
      WordTaggingTask.token_range r = tr.
Proof.
  revert rs. induction words as [|[[wp ws] tr] words IH]; intros rs; simpl.
  { intros [= <-]. done. }
  destruct (list_getitem names wp) as [name|e] eqn:Hget; [|done].
  destruct (WordTaggingTask.word_records names words) as [rs'|e]; [|done].
  intros [= <-]. destruct (IH rs' eq_refl) as [Hlen Hrec]. split.
  - simpl. by rewrite Hlen.
  - intros [|j] r; simpl.
    + intros [= <-]. by exists wp, ws, tr.
    + apply Hrec.
Qed.

Lemma word_records_valid names words :
  Forall (λ w, valid_index names w.1.1) words →
  ∃ rs, WordTaggingTask.word_records names words = Ok rs.
Proof.
  induction 1 as [|[[wp ws] tr] words Hw _ [rs IH]]; simpl; [by eexists|].
  destruct (list_getitem_valid names wp Hw) as (x & -> & _).
  rewrite IH. by eexists.
Qed.

Lemma word_records_Err names words e :
  WordTaggingTask.word_records names words = Err e →
  e = IndexError ∧ Exists (λ w, ¬ valid_index names w.1.1) words.
Proof.
  induction words as [|[[wp ws] tr] words IH]; simpl; [done|].
  destruct (list_getitem names wp) as [name|e'] eqn:Hget.
  - destruct (WordTaggingTask.word_records names words) as [rs'|e']; [done|].
    intros [= ->]. destruct (IH eq_refl) as [-> Hex]. split; [done|].
    by apply Exists_cons_tl.
  - intros [= ->]. apply list_getitem_Err in Hget as [-> Hinv].
    split; [done|]. by apply Exists_cons_hd.
Qed.

(** The i-th record sequence yielded comes from the i-th zipped example. *)
Lemma word_format_loop_lookup names examples i rs :
  yielded (WordTaggingTask.format_loop names examples) !! i = Some rs →
  ∃ p s trs, examples !! i = Some (p, s, trs) ∧
    WordTaggingTask.word_records names (zip3 p s trs) = Ok rs.
Proof.
  revert i. induction examples as [|[[p s] trs] examples IH]; intros i; simpl;
    [done|].
  destruct (WordTaggingTask.word_records names (zip3 p s trs)) as [rs'|e] eqn:Hw;
    simpl; [|done].
  destruct i as [|i]; simpl.
  - intros [= <-]. by exists p, s, trs.
  - apply IH.
Qed.

Lemma word_format_loop_length_le names examples :
  length (yielded (WordTaggingTask.format_loop names examples)) ≤ length examples.
Proof.
  induction examples as [|[[p s] trs] examples IH]; simpl; [done|].
  destruct (WordTaggingTask.word_records _ _); simpl; lia.
Qed.

(** With valid indices at every zipped token the loop runs through all the
    examples. *)
Lemma word_format_loop_valid names examples :
  Forall (λ ex, Forall (λ w, valid_index names w.1.1)
                       (zip3 ex.1.1 ex.1.2 ex.2)) examples →
  outcome (WordTaggingTask.format_loop names examples) = None ∧
  length (yielded (WordTaggingTask.format_loop names examples)) = length examples.
Proof.
  induction 1 as [|[[p s] trs] examples Hex _ [IH1 IH2]]; simpl; [done|].
  simpl in Hex. destruct (word_records_valid names _ Hex) as [rs ->]. simpl.
  by rewrite IH1, IH2.
Qed.

Lemma word_format_loop_raise names examples e :
  outcome (WordTaggingTask.format_loop names examples) = Some e →
  e = IndexError ∧
  Exists (λ ex, Exists (λ w, ¬ valid_index names w.1.1)
                       (zip3 ex.1.1 ex.1.2 ex.2)) examples.
Proof.
  induction examples as [|[[p s] trs] examples IH]; simpl; [done|].
  destruct (WordTaggingTask.word_records names (zip3 p s trs)) as [rs'|e'] eqn:Hw;
    simpl.
  - intros He. destruct (IH He) as [-> Hex]. split; [done|].
    by apply Exists_cons_tl.
  - intros [= ->]. apply word_records_Err in Hw as [-> Hinv].
    split; [done|]. by apply Exists_cons_hd.
Qed.
End word_format.

(** C3 (as stated, refuted). One example with one predicted tag and one score
    row but two token ranges: the only record sequence yielded has one
    record, not one per token range. *)
Lemma word_format_prediction_length_counterexample :
  yielded (WordTaggingTask.format_prediction
             [[0%Z]] [[[0.5%float]]]
             {[ DatasetFieldName.TOKEN_RANGE := [[(0%Z, 1%Z); (1%Z, 2%Z)]] ]}
             {| vocab := {| itos := ["A"] |} |})
  = [[ {| WordTaggingTask.prediction := "A";
          WordTaggingTask.score := {[ "A" := 0.5%float ]};
          WordTaggingTask.token_range := (0%Z, 1%Z) |} ]] ∧
  ¬ Forall2 (λ rs trs, length rs = length trs)
      (yielded (WordTaggingTask.format_prediction
                  [[0%Z]] [[[0.5%float]]]
                  {[ DatasetFieldName.TOKEN_RANGE := [[(0%Z, 1%Z); (1%Z, 2%Z)]] ]}
                  {| vocab := {| itos := ["A"] |} |}))
      [[(0%Z, 1%Z); (1%Z, 2%Z)]].
Proof.
  split; [reflexivity|]. intros H.
  apply Forall2_cons_1 in H as [H _]. simpl in H. discriminate.
Qed.

(** C3 (amended). For every call of [WordTaggingTask.format_prediction] whose
    context has the token-range field, whose predictions, scores and
    token-range list have the same length, in which no example has more
    token ranges than predicted tags or score rows, and in which every
    predicted index that is looked up is valid for the vocabulary, the
    formatter ends normally, the number of record sequences yielded equals
    the number of input examples, and each sequence's length equals that
    example's token-range count. *)
Theorem word_format_prediction_aligned {Score TokenRange : Type}
    (predictions : list (list Z)) (scores : list (list (list Score)))
    (context : BatchContext TokenRange) (target_meta : TargetMeta)
    (all_token_ranges : list (list TokenRange)) :
  context !! DatasetFieldName.TOKEN_RANGE = Some all_token_ranges →
  length predictions = length all_token_ranges →
  length scores = length all_token_ranges →
  Forall (λ ex, length ex.2 ≤ length ex.1.1 ∧ length ex.2 ≤ length ex.1.2)
         (zip3 predictions scores all_token_ranges) →
  Forall (λ ex, Forall (λ w, valid_index (itos (vocab target_meta)) w.1.1)
                       (zip3 ex.1.1 ex.1.2 ex.2))
         (zip3 predictions scores all_token_ranges) →
  outcome (WordTaggingTask.format_prediction
             predictions scores context target_meta) = None ∧
  length (yielded (WordTaggingTask.format_prediction
                     predictions scores context target_meta))
    = length predictions ∧
  Forall2 (λ rs trs, length rs = length trs)
    (yielded (WordTaggingTask.format_prediction
                predictions scores context target_meta))
    all_token_ranges.
Proof.
  intros Hctx Hlp Hls Hlong Hvalid.
  unfold WordTaggingTask.format_prediction. rewrite Hctx.
  destruct (word_format_loop_valid _ _ Hvalid) as [Hout Hlen].
  rewrite length_zip3 in Hlen.
  split_and!; [done|lia|].
  apply Forall2_same_length_lookup_2; [lia|].
  intros i rs trs Hrs Htrs.
  apply word_format_loop_lookup in Hrs as (p & s & trs' & Hex & Hw).
  rewrite Forall_lookup in Hlong. specialize (Hlong _ _ Hex). simpl in Hlong.
  apply lookup_zip3_Some in Hex as (_ & _ & Htrs'). simplify_eq.
  apply word_records_Ok in Hw as [Hlen' _].
  rewrite Hlen', length_zip3. lia.
Qed.

(** The amended statement at a padded batch: two predicted tags and score
    rows for an example with a single token range. *)
Lemma word_format_prediction_aligned_witness :
  length (yielded (WordTaggingTask.format_prediction
                     [[0%Z; 0%Z]] [[[0.5%float]; [0.5%float]]]
                     {[ DatasetFieldName.TOKEN_RANGE := [[(0%Z, 1%Z)]] ]}
                     {| vocab := {| itos := ["A"] |} |}))
    = 1 ∧
  Forall2 (λ rs trs, length rs = length trs)
    (yielded (WordTaggingTask.format_prediction
                [[0%Z; 0%Z]] [[[0.5%float]; [0.5%float]]]
                {[ DatasetFieldName.TOKEN_RANGE := [[(0%Z, 1%Z)]] ]}
                {| vocab := {| itos := ["A"] |} |}))
    [[(0%Z, 1%Z)]].
Proof.
  apply (word_format_prediction_aligned
           [[0%Z; 0%Z]] [[[0.5%float]; [0.5%float]]]
           {[ DatasetFieldName.TOKEN_RANGE := [[(0%Z, 1%Z)]] ]}
           {| vocab := {| itos := ["A"] |} |} [[(0%Z, 1%Z)]]).
  - reflexivity.
  - reflexivity.
  - reflexivity.
  - forall_concrete.
  - forall_concrete.
Defined.

(** C5. In the formatters (document classification and word tagging) a
    length mismatch between the zipped input sequences (predictions and
    scores, and for word tagging the context's token-range list) is no
    failure: each formatter behaves exactly as on its inputs cut to the
    length of the shortest sequence, so the output is silently truncated to
    that length. The only failure a call can end with is the [IndexError]
    of a vocabulary lookup at an invalid predicted index, which the cut
    inputs raise just the same; when every predicted index that is looked
    up is valid (and, for word tagging, the context has the token-range
    field) the call ends normally after yielding as many records as the
    shortest sequence has entries. *)
Theorem format_prediction_zip_shortest {Score TokenRange : Type}
    (predictions : list Z) (scores : list (list Score))
    (context : BatchContext TokenRange) (target_meta : TargetMeta)
    (word_predictions : list (list Z)) (word_scores : list (list (list Score)))
    (word_context : BatchContext TokenRange) (word_target_meta : TargetMeta) :
  (DocClassificationTask.format_prediction predictions scores context target_meta
     = DocClassificationTask.format_prediction
         (take (length predictions `min` length scores) predictions)
         (take (length predictions `min` length scores) scores)
         context target_meta ∧
   (Forall (λ ps, valid_index (itos (vocab target_meta)) ps.1)
           (zip predictions scores) →
    outcome (DocClassificationTask.format_prediction
               predictions scores context target_meta) = None ∧
    length (yielded (DocClassificationTask.format_prediction
                       predictions scores context target_meta))
      = length predictions `min` length scores) ∧
   (∀ e, outcome (DocClassificationTask.format_prediction
                    predictions scores context target_meta) = Some e →
         e = IndexError ∧
         Exists (λ ps, ¬ valid_index (itos (vocab target_meta)) ps.1)
                (zip predictions scores))) ∧
  (∀ all_token_ranges,
     word_context !! DatasetFieldName.TOKEN_RANGE = Some all_token_ranges →
     WordTaggingTask.format_prediction
       word_predictions word_scores word_context word_target_meta
       = WordTaggingTask.format_prediction
           (take ((length word_predictions `min` length word_scores)
                    `min` length all_token_ranges) word_predictions)
           (take ((length word_predictions `min` length word_scores)
                    `min` length all_token_ranges) word_scores)
           (<[ DatasetFieldName.TOKEN_RANGE :=
                 take ((length word_predictions `min` length word_scores)
                         `min` length all_token_ranges) all_token_ranges ]>
              word_context)
           word_target_meta ∧
     (Forall (λ ex, Forall (λ w, valid_index (itos (vocab word_target_meta)) w.1.1)
                           (zip3 ex.1.1 ex.1.2 ex.2))
             (zip3 word_predictions word_scores all_token_ranges) →
      outcome (WordTaggingTask.format_prediction
                 word_predictions word_scores word_context word_target_meta)
        = None ∧
      length (yielded (WordTaggingTask.format_prediction
                         word_predictions word_scores word_context
                         word_target_meta))
        = (length word_predictions `min` length word_scores)
            `min` length all_token_ranges) ∧
     (∀ e, outcome (WordTaggingTask.format_prediction
                      word_predictions word_scores word_context
                      word_target_meta) = Some e →
           e = IndexError ∧
           Exists (λ ex, Exists (λ w, ¬ valid_index
                                        (itos (vocab word_target_meta)) w.1.1)
                                (zip3 ex.1.1 ex.1.2 ex.2))
                  (zip3 word_predictions word_scores all_token_ranges))).
Proof.
  split.
  - unfold DocClassificationTask.format_prediction.
    split_and!; [by rewrite zip_take_shortest| |].
    + intros Hdoc. destruct (doc_format_loop_valid _ _ Hdoc) as [Hout Hlen].
      by rewrite length_zip in Hlen.
    + intros e. apply doc_format_loop_raise.
  - intros all_token_ranges Hctx. unfold WordTaggingTask.format_prediction.
    rewrite Hctx, lookup_insert_eq, zip3_take_shortest.
    split_and!; [done| |].
    + intros Hword. destruct (word_format_loop_valid _ _ Hword) as [Hout Hlen].
      by rewrite length_zip3 in Hlen.
    + intros e. apply word_format_loop_raise.
Qed.

(** The statement on mismatched inputs: three predictions against
    one score vector, and two tagged examples against one score matrix and
    three token-range lists; each formatter yields one record. *)
Lemma format_prediction_zip_shortest_witness :
  length (yielded (DocClassificationTask.format_prediction
                     [0%Z; 1%Z; 1%Z] [[0.9%float; 0.1%float]]
                     (∅ : BatchContext (Z * Z))
                     {| vocab := {| itos := ["POS"; "NEG"] |} |}))
    = 1 ∧
  length (yielded (WordTaggingTask.format_prediction
                     [[0%Z]; [0%Z]] [[[0.5%float]]]
                     {[ DatasetFieldName.TOKEN_RANGE :=
                          [[(0%Z, 1%Z)]; [(1%Z, 2%Z)]; [(2%Z, 3%Z)]] ]}
                     {| vocab := {| itos := ["A"] |} |}))
    = 1.
Proof.
  destruct (format_prediction_zip_shortest
              [0%Z; 1%Z; 1%Z] [[0.9%float; 0.1%float]]
              (∅ : BatchContext (Z * Z))
              {| vocab := {| itos := ["POS"; "NEG"] |} |}
              [[0%Z]; [0%Z]] [[[0.5%float]]]
              {[ DatasetFieldName.TOKEN_RANGE :=
                   [[(0%Z, 1%Z)]; [(1%Z, 2%Z)]; [(2%Z, 3%Z)]] ]}
              {| vocab := {| itos := ["A"] |} |})
    as [(_ & Hdoc & _) Hword].
  split.
  - apply Hdoc. forall_concrete.
  - apply (Hword [[(0%Z, 1%Z)]; [(1%Z, 2%Z)]; [(2%Z, 3%Z)]]).
    + reflexivity.
    + forall_concrete.
Defined.

(** ** Repeated vocabulary names *)

Lemma score_map_keeps_last {Score : Type} (names : list string) (s : list Score) :
  keeps_last_score names s (dict_comprehension (zip names s)).
Proof. intros n v. apply score_map_lookup. Qed.

(** C8. In every record yielded by [DocClassificationTask.format_prediction],
    and in every per-token record of every sequence yielded by
    [WordTaggingTask.format_prediction], the score mapping holds, under each
    name, the last score zipped with that name; so if the target vocabulary
    contains duplicate names the mapping has strictly fewer entries than the
    vocabulary has elements, and it has one entry per vocabulary element only
    when all the names are distinct. *)
Theorem score_map_duplicate_names {Score TokenRange : Type}
    (predictions : list Z) (scores : list (list Score))
    (context : BatchContext TokenRange) (target_meta : TargetMeta)
    (word_predictions : list (list Z)) (word_scores : list (list (list Score)))
    (word_context : BatchContext TokenRange) (word_target_meta : TargetMeta) :
  (∀ i r,
     yielded (DocClassificationTask.format_prediction
                predictions scores context target_meta) !! i = Some r →
     ∃ s, scores !! i = Some s ∧
       keeps_last_score (itos (vocab target_meta)) s
         (DocClassificationTask.score r) ∧
       (¬ NoDup (itos (vocab target_meta)) →
          size (DocClassificationTask.score r)
            < length (itos (vocab target_meta))) ∧
       (size (DocClassificationTask.score r) = length (itos (vocab target_meta)) →
          NoDup (itos (vocab target_meta)))) ∧
  (∀ i rs j r,
     yielded (WordTaggingTask.format_prediction
                word_predictions word_scores word_context word_target_meta)
       !! i = Some rs →
     rs !! j = Some r →
     ∃ score word_score, word_scores !! i = Some score ∧
       score !! j = Some word_score ∧
       keeps_last_score (itos (vocab word_target_meta)) word_score
         (WordTaggingTask.score r) ∧
       (¬ NoDup (itos (vocab word_target_meta)) →
          size (WordTaggingTask.score r)
            < length (itos (vocab word_target_meta))) ∧
       (size (WordTaggingTask.score r) = length (itos (vocab word_target_meta)) →
          NoDup (itos (vocab word_target_meta)))).
Proof.
  split.
  - intros i r Hr. unfold DocClassificationTask.format_prediction in Hr.
    apply doc_format_loop_lookup in Hr as (p & s & Hps & _ & ->).
    apply lookup_zip_Some in Hps as [_ Hs]. exists s. split_and!; [done|..].
    + apply score_map_keeps_last.
    + apply score_map_size_dup.
    + apply score_map_size_NoDup.
  - intros i rs j r Hrs Hr. unfold WordTaggingTask.format_prediction in Hrs.
    destruct (word_context !! DatasetFieldName.TOKEN_RANGE) as [trs|]; [|done].
    apply word_format_loop_lookup in Hrs as (p & s & tr & Hex & Hw).
    apply lookup_zip3_Some in Hex as (_ & Hs & _).
    apply word_records_Ok in Hw as [_ Hrec].
    destruct (Hrec j r Hr) as (wp & ws & t & Hword & _ & -> & _).
    apply lookup_zip3_Some in Hword as (_ & Hws & _).
    exists s, ws. split_and!; [done..| | |].
    + apply score_map_keeps_last.
    + apply score_map_size_dup.
    + apply score_map_size_NoDup.
Qed.

(** The statement at a vocabulary that repeats a name, ["A","A"], with the
    scores [0.1, 0.2]: the document record and the token record both keep
    one entry, the later score 0.2. *)
Lemma score_map_duplicate_names_witness :
  (∃ r, yielded (DocClassificationTask.format_prediction
                   [0%Z] [[0.1%float; 0.2%float]] (∅ : BatchContext (Z * Z))
                   {| vocab := {| itos := ["A"; "A"] |} |}) !! 0 = Some r ∧
        DocClassificationTask.score r !! "A" = Some 0.2%float ∧
        size (DocClassificationTask.score r) < 2) ∧
  (∃ rs r, yielded (WordTaggingTask.format_prediction
                      [[1%Z]] [[[0.1%float; 0.2%float]]]
                      {[ DatasetFieldName.TOKEN_RANGE := [[(0%Z, 1%Z)]] ]}
                      {| vocab := {| itos := ["A"; "A"] |} |}) !! 0 = Some rs ∧
           rs !! 0 = Some r ∧
           WordTaggingTask.score r !! "A" = Some 0.2%float ∧
           size (WordTaggingTask.score r) < 2).
Proof.
  assert (¬ NoDup ["A"; "A"]) as Hdup.
  { intros Hnd. apply NoDup_cons_1_1 in Hnd. apply Hnd. left. }
  destruct (score_map_duplicate_names
              [0%Z] [[0.1%float; 0.2%float]] (∅ : BatchContext (Z * Z))
              {| vocab := {| itos := ["A"; "A"] |} |}
              [[1%Z]] [[[0.1%float; 0.2%float]]]
              {[ DatasetFieldName.TOKEN_RANGE := [[(0%Z, 1%Z)]] ]}
              {| vocab := {| itos := ["A"; "A"] |} |})
    as [Hdoc Hword].
  split.
  - eexists. split; [reflexivity|].
    destruct (Hdoc 0 _ eq_refl) as (s & Hs & Hlast & Hlt & _).
    injection Hs as <-. split; [|exact (Hlt Hdup)].
    apply Hlast. exists 1. split_and!; [done..|]. simpl. lia.
  - eexists _, _. split; [reflexivity|]. split; [reflexivity|].
    destruct (Hword 0 _ 0 _ eq_refl eq_refl)
      as (s & ws & Hs & Hws & Hlast & Hlt & _).
    injection Hs as <-. injection Hws as <-. split; [|exact (Hlt Hdup)].
    apply Hlast. exists 1. split_and!; [done..|]. simpl. lia.
Defined.

(** ** Joint formatting *)

Section joint_format.
Context {Score TokenRange : Type}.
Implicit Types (gd : gen (DocClassificationTask.Record_ Score))
  (gw : gen (list (WordTaggingTask.Record_ Score TokenRange))).

(** Zipping two generators yields the zip of what they yield, whatever way
    either of them ends. *)
Lemma zip_loop_yielded gd gw :
  yielded (JointTextTask.zip_loop gd gw) = zip_intent_slot (yielded gd) (yielded gw).
Proof.
  revert gw. induction gd as [|e|a gd IH]; intros gw; simpl; [done..|].
  destruct gw as [|e|b gw]; simpl; [done..|].
  unfold zip_intent_slot in *. simpl. by rewrite IH.
Qed.

Lemma zip_loop_outcome gd gw :
  outcome gd = None → outcome gw = None →
  outcome (JointTextTask.zip_loop gd gw) = None.
Proof.
  revert gw. induction gd as [|e|a gd IH]; intros gw; simpl; [done..|].
  destruct gw as [|e|b gw]; simpl; [done..|]. apply IH.
Qed.

(** The first generator is asked first: the zip ends the way it ends, unless
    the second one ends after strictly fewer items. *)
Lemma zip_loop_outcome_first gd gw :
  outcome (JointTextTask.zip_loop gd gw)
  = if decide (length (yielded gd) ≤ length (yielded gw))
    then outcome gd else outcome gw.
Proof.
  revert gw. induction gd as [|e|a gd IH]; intros gw.
  - cbn [JointTextTask.zip_loop yielded outcome length].
    case_decide; [done|lia].
  - cbn [JointTextTask.zip_loop yielded outcome length].
    case_decide; [done|lia].
  - destruct gw as [|e|b gw];
      cbn [JointTextTask.zip_loop yielded outcome length].
    + case_decide; [lia|done].
    + case_decide; [lia|done].
    + rewrite IH. repeat case_decide; try done; lia.
Qed.

Lemma zip_intent_slot_lookup
    (intents : list (DocClassificationTask.Record_ Score))
    (slots : list (list (WordTaggingTask.Record_ Score TokenRange))) i r :
  zip_intent_slot intents slots !! i = Some r ↔
  intents !! i = Some (JointTextTask.intent r) ∧
  slots !! i = Some (JointTextTask.slot r).
Proof.
  unfold zip_intent_slot. rewrite lookup_zip_with_Some. split.
  - by intros (a & b & -> & ? & ?).
  - intros [? ?]. destruct r as [a b]. by exists a, b.
Qed.

(** The token ranges of a yielded sequence are those the context lists for
    that example, in order. *)
Lemma word_format_prediction_token_ranges
    (predictions : list (list Z)) (scores : list (list (list Score)))
    (context : BatchContext TokenRange) (target_meta : TargetMeta) i rs :
  yielded (WordTaggingTask.format_prediction
             predictions scores context target_meta) !! i = Some rs →
  ∃ all_token_ranges token_ranges,
    context !! DatasetFieldName.TOKEN_RANGE = Some all_token_ranges ∧
    all_token_ranges !! i = Some token_ranges ∧
    ∀ j w, rs !! j = Some w →
           token_ranges !! j = Some (WordTaggingTask.token_range w).
Proof.
  unfold WordTaggingTask.format_prediction.
  destruct (context !! DatasetFieldName.TOKEN_RANGE) as [trs|]; [|done].
  intros Hrs. apply word_format_loop_lookup in Hrs as (p & s & tr & Hex & Hw).
  apply lookup_zip3_Some in Hex as (_ & _ & Htr).
  exists trs, tr. split_and!; [done..|]. intros j w Hj.
  apply word_records_Ok in Hw as [_ Hrec].
  destruct (Hrec j w Hj) as (wp & ws & t & Hword & _ & _ & ->).
  by apply lookup_zip3_Some in Hword as (_ & _ & ?).
Qed.
End joint_format.

(** ** What a loop does on a valid prefix *)

Section valid_prefix.
Context {Score TokenRange : Type}.
Implicit Types (names : list string) (pairs : list (Z * list Score))
  (examples : list (list Z * list (list Score) * list TokenRange)).

Lemma doc_format_loop_app names pairs (rest : list (Z * list Score)) :
  Forall (λ ps, valid_index names ps.1) pairs →
  yielded (DocClassificationTask.format_loop names (pairs ++ rest))
    = yielded (DocClassificationTask.format_loop names pairs)
      ++ yielded (DocClassificationTask.format_loop names rest) ∧
  outcome (DocClassificationTask.format_loop names (pairs ++ rest))
    = outcome (DocClassificationTask.format_loop names rest).
Proof.
  induction 1 as [|[p s] pairs Hp _ [IH1 IH2]]; simpl; [done|].
  destruct (list_getitem_valid names p Hp) as (x & -> & _). simpl.
  by rewrite IH1, IH2.
Qed.

(** If the first [j] pairs have valid indices, the loop yields at least
    their records, and ends normally when there is no further pair. *)
Lemma doc_format_loop_take names pairs (j : nat) :
  Forall (λ ps, valid_index names ps.1) (take j pairs) →
  j `min` length pairs
    ≤ length (yielded (DocClassificationTask.format_loop names pairs)) ∧
  (length pairs ≤ j →
   outcome (DocClassificationTask.format_loop names pairs) = None).
Proof.
  intros Hj. split.
  - rewrite <-(take_drop j pairs) at 2.
    destruct (doc_format_loop_app names _ (drop j pairs) Hj) as [-> _].
    destruct (doc_format_loop_valid names _ Hj) as [_ Hlen].
    rewrite length_app, Hlen, length_take. lia.
  - intros Hle. rewrite take_ge in Hj by done.
    by apply doc_format_loop_valid.
Qed.

Lemma word_format_loop_app names examples
    (rest : list (list Z * list (list Score) * list TokenRange)) :
  Forall (λ ex, Forall (λ w, valid_index names w.1.1)
                       (zip3 ex.1.1 ex.1.2 ex.2)) examples →
  yielded (WordTaggingTask.format_loop names (examples ++ rest))
    = yielded (WordTaggingTask.format_loop names examples)
      ++ yielded (WordTaggingTask.format_loop names rest) ∧
  outcome (WordTaggingTask.format_loop names (examples ++ rest))
    = outcome (WordTaggingTask.format_loop names rest).
Proof.
  induction 1 as [|[[p s] trs] examples Hex _ [IH1 IH2]]; simpl; [done|].
  simpl in Hex. destruct (word_records_valid names _ Hex) as [rs ->]. simpl.
  by rewrite IH1, IH2.
Qed.

Lemma word_format_loop_take names examples (j : nat) :
  Forall (λ ex, Forall (λ w, valid_index names w.1.1)
                       (zip3 ex.1.1 ex.1.2 ex.2)) (take j examples) →
  j `min` length examples
    ≤ length (yielded (WordTaggingTask.format_loop names examples)) ∧
  (length examples ≤ j →
   outcome (WordTaggingTask.format_loop names examples) = None).
Proof.
  intros Hj. split.
  - rewrite <-(take_drop j examples) at 2.
    destruct (word_format_loop_app names _ (drop j examples) Hj) as [-> _].
    destruct (word_format_loop_valid names _ Hj) as [_ Hlen].
    rewrite length_app, Hlen, length_take. lia.
  - intros Hle. rewrite take_ge in Hj by done.
    by apply word_format_loop_valid.
Qed.
End valid_prefix.

(** C4 (as stated, refuted). Two document predictions and two tagged examples,
    but a single document score vector: nothing fails, one combined record is
    yielded, and min(len(doc_preds), len(word_preds)) is two. *)
Lemma joint_format_prediction_length_counterexample :
  outcome (JointTextTask.format_prediction
             ([0%Z; 0%Z], [[0%Z]; [0%Z]])
             ([[0.9%float]], [[[0.5%float]]; [[0.5%float]]])
             {[ DatasetFieldName.TOKEN_RANGE := [[(0%Z, 1%Z)]; [(1%Z, 2%Z)]] ]}
             ({| vocab := {| itos := ["A"] |} |},
              {| vocab := {| itos := ["B"] |} |})) = None ∧
  length (yielded (JointTextTask.format_prediction
                     ([0%Z; 0%Z], [[0%Z]; [0%Z]])
                     ([[0.9%float]], [[[0.5%float]]; [[0.5%float]]])
                     {[ DatasetFieldName.TOKEN_RANGE :=
                          [[(0%Z, 1%Z)]; [(1%Z, 2%Z)]] ]}
                     ({| vocab := {| itos := ["A"] |} |},
                      {| vocab := {| itos := ["B"] |} |}))) = 1 ∧
  length [0%Z; 0%Z] `min` length [[0%Z]; [0%Z]] = 2.
Proof. split_and!; reflexivity. Qed.

(** C4 (amended). For every call of [JointTextTask.format_prediction] with
    predictions (doc_preds, word_preds), scores (doc_scores, word_scores) and
    target_meta (doc_meta, word_meta), the records yielded are the pairwise
    zip of the records yielded by
    [DocClassificationTask.format_prediction(doc_preds, doc_scores, context,
    doc_meta)] and by [WordTaggingTask.format_prediction(word_preds,
    word_scores, context, word_meta)], the i-th record being {"intent": i-th
    document record, "slot": i-th word-tagging record}, and their number is
    the smaller of the two sub-formatters' output lengths. When the context
    has the token-range field and every predicted index that is looked up is
    valid, the call ends normally and the output length is
    min(len(doc_preds), len(doc_scores), len(word_preds), len(word_scores),
    len(token_ranges)); that is min(len(doc_preds), len(word_preds)) when the
    score sequences and the token-range list are at least as long as the
    predictions they are zipped with. The indices looked up are those the
    zip of the two generators reaches: with n_doc zipped document pairs and
    n_word zipped word examples, the predictions of the first
    min(n_doc, n_word + 1) document pairs (the document formatter is asked
    first, so once more than the word formatter yields) and of the tokens
    of the first min(n_doc, n_word) word examples. *)
Theorem joint_format_prediction_zip {Score TokenRange : Type}
    (doc_preds : list Z) (word_preds : list (list Z))
    (doc_scores : list (list Score)) (word_scores : list (list (list Score)))
    (context : BatchContext TokenRange)
    (doc_target_meta word_target_meta : TargetMeta) :
  yielded (JointTextTask.format_prediction
             (doc_preds, word_preds) (doc_scores, word_scores) context
             (doc_target_meta, word_target_meta))
    = zip_intent_slot
        (yielded (DocClassificationTask.format_prediction
                    doc_preds doc_scores context doc_target_meta))
        (yielded (WordTaggingTask.format_prediction
                    word_preds word_scores context word_target_meta)) ∧
  (∀ i r,
     yielded (JointTextTask.format_prediction
                (doc_preds, word_preds) (doc_scores, word_scores) context
                (doc_target_meta, word_target_meta)) !! i = Some r ↔
     yielded (DocClassificationTask.format_prediction
                doc_preds doc_scores context doc_target_meta) !! i
       = Some (JointTextTask.intent r) ∧
     yielded (WordTaggingTask.format_prediction
                word_preds word_scores context word_target_meta) !! i
       = Some (JointTextTask.slot r)) ∧
  length (yielded (JointTextTask.format_prediction
                     (doc_preds, word_preds) (doc_scores, word_scores) context
                     (doc_target_meta, word_target_meta)))
    = length (yielded (DocClassificationTask.format_prediction
                         doc_preds doc_scores context doc_target_meta))
      `min`
      length (yielded (WordTaggingTask.format_prediction
                         word_preds word_scores context word_target_meta)) ∧
  (∀ all_token_ranges,
     context !! DatasetFieldName.TOKEN_RANGE = Some all_token_ranges →
     Forall (λ ps, valid_index (itos (vocab doc_target_meta)) ps.1)
            (take (S (length (zip3 word_preds word_scores all_token_ranges)))
                  (zip doc_preds doc_scores)) →
     Forall (λ ex, Forall (λ w, valid_index (itos (vocab word_target_meta)) w.1.1)
                          (zip3 ex.1.1 ex.1.2 ex.2))
            (take (length (zip doc_preds doc_scores))
                  (zip3 word_preds word_scores all_token_ranges)) →
     outcome (JointTextTask.format_prediction
                (doc_preds, word_preds) (doc_scores, word_scores) context
                (doc_target_meta, word_target_meta)) = None ∧
     length (yielded (JointTextTask.format_prediction
                        (doc_preds, word_preds) (doc_scores, word_scores)
                        context (doc_target_meta, word_target_meta)))
       = (length doc_preds `min` length doc_scores) `min`
         ((length word_preds `min` length word_scores)
            `min` length all_token_ranges) ∧
     (length doc_preds ≤ length doc_scores →
      length word_preds ≤ length word_scores →
      length word_preds ≤ length all_token_ranges →
      length (yielded (JointTextTask.format_prediction
                         (doc_preds, word_preds) (doc_scores, word_scores)
                         context (doc_target_meta, word_target_meta)))
        = length doc_preds `min` length word_preds)).
Proof.
  unfold JointTextTask.format_prediction.
  pose proof (zip_loop_yielded
    (DocClassificationTask.format_prediction
       doc_preds doc_scores context doc_target_meta)
    (WordTaggingTask.format_prediction
       word_preds word_scores context word_target_meta)) as Hzip.
  assert (length (yielded (JointTextTask.zip_loop
            (DocClassificationTask.format_prediction
               doc_preds doc_scores context doc_target_meta)
            (WordTaggingTask.format_prediction
               word_preds word_scores context word_target_meta)))
          = length (yielded (DocClassificationTask.format_prediction
                               doc_preds doc_scores context doc_target_meta))
            `min`
            length (yielded (WordTaggingTask.format_prediction
                               word_preds word_scores context word_target_meta)))
    as Hmin.
  { rewrite Hzip. unfold zip_intent_slot. by rewrite length_zip_with. }
  split_and!.
  - exact Hzip.
  - intros i r. rewrite Hzip. apply zip_intent_slot_lookup.
  - exact Hmin.
  - intros all_token_ranges Hctx Hdoc Hword.
    rewrite Hmin, zip_loop_outcome_first. clear Hzip Hmin.
    unfold DocClassificationTask.format_prediction,
      WordTaggingTask.format_prediction.
    rewrite Hctx.
    destruct (doc_format_loop_take _ _ _ Hdoc) as [Hd1 Hd2].
    destruct (word_format_loop_take _ _ _ Hword) as [Hw1 Hw2].
    pose proof (doc_format_loop_length_le (itos (vocab doc_target_meta))
                  (zip doc_preds doc_scores)) as Hd3.
    pose proof (word_format_loop_length_le (itos (vocab word_target_meta))
                  (zip3 word_preds word_scores all_token_ranges)) as Hw3.
    assert (length (zip doc_preds doc_scores)
            = length doc_preds `min` length doc_scores) as Hnd
      by apply length_zip.
    assert (length (zip3 word_preds word_scores all_token_ranges)
            = (length word_preds `min` length word_scores)
                `min` length all_token_ranges) as Hnw
      by apply length_zip3.
    destruct (decide (length (zip doc_preds doc_scores)
                      ≤ length (zip3 word_preds word_scores all_token_ranges)))
      as [Hle|Hgt].
    + rewrite decide_True by lia.
      split_and!; [apply Hd2; lia|lia|lia].
    + rewrite decide_False by lia.
      split_and!; [apply Hw2; lia|lia|lia].
Qed.

(** The amended statement at a call whose second word example carries the
    index 9, which no vocabulary has: one document pair is zipped, so that
    example is never reached, and the call ends normally with one record. *)
Lemma joint_format_prediction_zip_witness :
  outcome (JointTextTask.format_prediction
             ([0%Z], [[0%Z]; [9%Z]])
             ([[0.9%float]], [[[0.5%float]]; [[0.5%float]]])
             {[ DatasetFieldName.TOKEN_RANGE := [[(0%Z, 1%Z)]; [(1%Z, 2%Z)]] ]}
             ({| vocab := {| itos := ["A"] |} |},
              {| vocab := {| itos := ["B"] |} |})) = None ∧
  length (yielded (JointTextTask.format_prediction
                     ([0%Z], [[0%Z]; [9%Z]])
                     ([[0.9%float]], [[[0.5%float]]; [[0.5%float]]])
                     {[ DatasetFieldName.TOKEN_RANGE :=
                          [[(0%Z, 1%Z)]; [(1%Z, 2%Z)]] ]}
                     ({| vocab := {| itos := ["A"] |} |},
                      {| vocab := {| itos := ["B"] |} |})))
    = (1 `min` 1) `min` ((2 `min` 2) `min` 2).
Proof.
  destruct (joint_format_prediction_zip
              [0%Z] [[0%Z]; [9%Z]]
              [[0.9%float]] [[[0.5%float]]; [[0.5%float]]]
              {[ DatasetFieldName.TOKEN_RANGE := [[(0%Z, 1%Z)]; [(1%Z, 2%Z)]] ]}
              {| vocab := {| itos := ["A"] |} |}
              {| vocab := {| itos := ["B"] |} |})
    as (_ & _ & _ & Hlen).
  destruct (Hlen [[(0%Z, 1%Z)]; [(1%Z, 2%Z)]]) as (Hout & Hmin & _).
  - reflexivity.
  - forall_concrete.
  - forall_concrete.
  - split; [exact Hout|exact Hmin].
Defined.

(** C10. [JointTextTask.format_prediction] hands the same, whole context to
    both sub-formatters, and splits only predictions, scores and target_meta
    into their document and word halves: it is the zip of the document
    formatter on (doc_preds, doc_scores, context, doc_meta) with the
    word-tagging formatter on (word_preds, word_scores, context, word_meta).
    The document half does not read the context; the token ranges of every
    "slot" record are read from the token-range field of that shared
    context, at the example's position. *)
Theorem joint_format_prediction_shared_context {Score TokenRange : Type}
    (doc_preds : list Z) (word_preds : list (list Z))
    (doc_scores : list (list Score)) (word_scores : list (list (list Score)))
    (context : BatchContext TokenRange)
    (doc_target_meta word_target_meta : TargetMeta) :
  JointTextTask.format_prediction
    (doc_preds, word_preds) (doc_scores, word_scores) context
    (doc_target_meta, word_target_meta)
  = JointTextTask.zip_loop
      (DocClassificationTask.format_prediction
         doc_preds doc_scores context doc_target_meta)
      (WordTaggingTask.format_prediction
         word_preds word_scores context word_target_meta) ∧
  (∀ context' : BatchContext TokenRange,
     DocClassificationTask.format_prediction
       doc_preds doc_scores context' doc_target_meta
     = DocClassificationTask.format_prediction
         doc_preds doc_scores context doc_target_meta) ∧
  (∀ i r,
     yielded (JointTextTask.format_prediction
                (doc_preds, word_preds) (doc_scores, word_scores) context
                (doc_target_meta, word_target_meta)) !! i = Some r →
     ∃ all_token_ranges token_ranges,
       context !! DatasetFieldName.TOKEN_RANGE = Some all_token_ranges ∧
       all_token_ranges !! i = Some token_ranges ∧
       ∀ j w, JointTextTask.slot r !! j = Some w →
              token_ranges !! j = Some (WordTaggingTask.token_range w)).
Proof.
  split_and!; [done..|]. intros i r.
  unfold JointTextTask.format_prediction.
  rewrite zip_loop_yielded, zip_intent_slot_lookup. intros [_ Hslot].
  by apply word_format_prediction_token_ranges in Hslot.
Qed.

(** The statement at a call with one example of two tokens: the slot
    records carry the two token ranges of the context, in order. *)
Lemma joint_format_prediction_shared_context_witness :
  ∃ r, yielded (JointTextTask.format_prediction
                  ([0%Z], [[0%Z; 0%Z]])
                  ([[0.9%float]], [[[0.5%float]; [0.25%float]]])
                  {[ DatasetFieldName.TOKEN_RANGE := [[(0%Z, 4%Z); (5%Z, 9%Z)]] ]}
                  ({| vocab := {| itos := ["A"] |} |},
                   {| vocab := {| itos := ["B"] |} |})) !! 0 = Some r ∧
       WordTaggingTask.token_range <$> JointTextTask.slot r
         = [(0%Z, 4%Z); (5%Z, 9%Z)].
Proof.
  destruct (joint_format_prediction_shared_context
              [0%Z] [[0%Z; 0%Z]]
              [[0.9%float]] [[[0.5%float]; [0.25%float]]]
              {[ DatasetFieldName.TOKEN_RANGE := [[(0%Z, 4%Z); (5%Z, 9%Z)]] ]}
              {| vocab := {| itos := ["A"] |} |}
              {| vocab := {| itos := ["B"] |} |})
    as (_ & _ & Hranges).
  eexists. split; [reflexivity|].
  destruct (Hranges 0 _ eq_refl) as (trs & tr & Htrs & Htr & Hslot).
  rewrite lookup_singleton_eq in Htrs.
  injection Htrs as <-. simpl in Htr. injection Htr as <-.
  apply list_eq. intros [|[|j]]; simpl.
  - symmetry. exact (Hslot 0 _ eq_refl).
  - symmetry. exact (Hslot 1 _ eq_refl).
  - reflexivity.
Defined.

(** ** Ensemble training delegation *)

Section ensemble.
Context {Model DataHandler Trainer MetricReporter TrainConfig
         Optimizer Scheduler TrainIter EvalIter TrainResult : Type}.
Variable get_train_iter : DataHandler → Z → Z → TrainIter * DataHandler.
Variable get_eval_iter : DataHandler → EvalIter * DataHandler.
Variable trainer_train_single_model :
  Trainer → TrainIter → EvalIter → Model → MetricReporter → TrainConfig →
  Optimizer → Scheduler →
  @EnsembleTask.Trained Model Trainer MetricReporter Optimizer Scheduler TrainResult.

Local Abbreviation train_single_model :=
  (EnsembleTask.train_single_model
     get_train_iter get_eval_iter trainer_train_single_model).

(** What a call with a valid [model_id] amounts to: the two iterators are
    asked for in turn, the trainer is called once on the sub-model at
    [model_id] with the state the task's objects had, and its effects are
    written back. *)
Lemma train_single_model_valid (self : EnsembleTask.Self)
    (train_config : TrainConfig) (model_id : Z) (rank world_size : option Z) w :
  (0 ≤ model_id < Z.of_nat (length (EnsembleTask.models self)))%Z →
  ∃ m train_iter dh1 eval_iter dh2,
    EnsembleTask.models self !! Z.to_nat model_id = Some m ∧
    get_train_iter (EnsembleTask.data_handler w)
      (default 0%Z rank) (default 1%Z world_size) = (train_iter, dh1) ∧
    get_eval_iter dh1 = (eval_iter, dh2) ∧
    train_single_model self train_config model_id rank world_size w
    = (Ok (EnsembleTask.returned
             (trainer_train_single_model (EnsembleTask.trainer w)
                train_iter eval_iter (EnsembleTask.model_state w m)
                (EnsembleTask.metric_reporter w) train_config
                (EnsembleTask.optimizer w) (EnsembleTask.lr_scheduler w))),
       {| EnsembleTask.model_state :=
            <[m := EnsembleTask.trained_model
                     (trainer_train_single_model (EnsembleTask.trainer w)
                        train_iter eval_iter (EnsembleTask.model_state w m)
                        (EnsembleTask.metric_reporter w) train_config
                        (EnsembleTask.optimizer w) (EnsembleTask.lr_scheduler w))]>
              (EnsembleTask.model_state w);
          EnsembleTask.trainer :=
            EnsembleTask.trainer_after
              (trainer_train_single_model (EnsembleTask.trainer w)
                 train_iter eval_iter (EnsembleTask.model_state w m)
                 (EnsembleTask.metric_reporter w) train_config
                 (EnsembleTask.optimizer w) (EnsembleTask.lr_scheduler w));
          EnsembleTask.data_handler := dh2;
          EnsembleTask.metric_reporter :=
            EnsembleTask.metric_reporter_after
              (trainer_train_single_model (EnsembleTask.trainer w)
                 train_iter eval_iter (EnsembleTask.model_state w m)
                 (EnsembleTask.metric_reporter w) train_config
                 (EnsembleTask.optimizer w) (EnsembleTask.lr_scheduler w));
          EnsembleTask.optimizer :=
            EnsembleTask.optimizer_after
              (trainer_train_single_model (EnsembleTask.trainer w)
                 train_iter eval_iter (EnsembleTask.model_state w m)
                 (EnsembleTask.metric_reporter w) train_config
                 (EnsembleTask.optimizer w) (EnsembleTask.lr_scheduler w));
          EnsembleTask.lr_scheduler :=
            EnsembleTask.lr_scheduler_after
              (trainer_train_single_model (EnsembleTask.trainer w)
                 train_iter eval_iter (EnsembleTask.model_state w m)
                 (EnsembleTask.metric_reporter w) train_config
                 (EnsembleTask.optimizer w) (EnsembleTask.lr_scheduler w));
          EnsembleTask.calls :=
            EnsembleTask.calls w ++
            [EnsembleTask.Call_get_train_iter
               (default 0%Z rank) (default 1%Z world_size);
             EnsembleTask.Call_get_eval_iter;
             EnsembleTask.Call_train_single_model
               train_iter eval_iter m train_config] |}).
Proof.
  intros Hid. unfold EnsembleTask.train_single_model.
  rewrite decide_True by lia.
  destruct (get_train_iter _ _ _) as [train_iter dh1] eqn:Htrain. simpl.
  destruct (get_eval_iter dh1) as [eval_iter dh2] eqn:Heval. simpl.
  destruct (list_getitem_valid (EnsembleTask.models self) model_id)
    as (m & Hget & Hm); [unfold valid_index; lia|].
  rewrite index_position_nonneg in Hm by lia. rewrite Hget.
  exists m, train_iter, dh1, eval_iter, dh2. split_and!; [done..|].
  by rewrite <-!(assoc_L (++)).
Qed.
(** C2. For every ensemble task and every [model_id] outside
    [0, len(self.model.models)), [train_single_model] fails with an
    assertion error and leaves everything as it was: the state of every
    object is unchanged and no call is added to the log, so neither the data
    handler nor the trainer is invoked. *)
Theorem train_single_model_rejects_model_id (self : EnsembleTask.Self)
    (train_config : TrainConfig) (model_id : Z) (rank world_size : option Z) w :
  ¬ (0 ≤ model_id < Z.of_nat (length (EnsembleTask.models self)))%Z →
  train_single_model self train_config model_id rank world_size w
    = (Err AssertionError, w) ∧
  EnsembleTask.calls
    (train_single_model self train_config model_id rank world_size w).2
    = EnsembleTask.calls w ∧
  filter EnsembleTask.is_train_call
    (EnsembleTask.calls
       (train_single_model self train_config model_id rank world_size w).2)
    = filter EnsembleTask.is_train_call (EnsembleTask.calls w).
Proof.
  intros Hid. unfold EnsembleTask.train_single_model.
  rewrite decide_False by lia. done.
Qed.

(** C6. For every ensemble task and every valid [model_id], the call asks
    the data handler for the training iterator of the partition
    (rank, world_size), then for the evaluation iterator, and then calls the
    trainer exactly once, on the sub-model at index [model_id] with these two
    iterators; that sub-model takes the state the trainer leaves, and the
    state of every other sub-model object is unchanged (so, the sub-models
    being distinct objects, of the sub-model at every other index). *)
Theorem train_single_model_trains_one_model (self : EnsembleTask.Self)
    (train_config : TrainConfig) (model_id : Z) (rank world_size : option Z) w :
  (0 ≤ model_id < Z.of_nat (length (EnsembleTask.models self)))%Z →
  ∃ m train_iter dh1 eval_iter dh2,
    EnsembleTask.models self !! Z.to_nat model_id = Some m ∧
    get_train_iter (EnsembleTask.data_handler w)
      (default 0%Z rank) (default 1%Z world_size) = (train_iter, dh1) ∧
    get_eval_iter dh1 = (eval_iter, dh2) ∧
    EnsembleTask.calls
      (train_single_model self train_config model_id rank world_size w).2
    = EnsembleTask.calls w ++
      [EnsembleTask.Call_get_train_iter
         (default 0%Z rank) (default 1%Z world_size);
       EnsembleTask.Call_get_eval_iter;
       EnsembleTask.Call_train_single_model train_iter eval_iter m train_config] ∧
    EnsembleTask.model_state
      (train_single_model self train_config model_id rank world_size w).2 m
    = EnsembleTask.trained_model
        (trainer_train_single_model (EnsembleTask.trainer w)
           train_iter eval_iter (EnsembleTask.model_state w m)
           (EnsembleTask.metric_reporter w) train_config
           (EnsembleTask.optimizer w) (EnsembleTask.lr_scheduler w)) ∧
    (∀ m', m' ≠ m →
       EnsembleTask.model_state
         (train_single_model self train_config model_id rank world_size w).2 m'
       = EnsembleTask.model_state w m') ∧
    (NoDup (EnsembleTask.models self) →
     ∀ j m', j ≠ Z.to_nat model_id →
       EnsembleTask.models self !! j = Some m' →
       EnsembleTask.model_state
         (train_single_model self train_config model_id rank world_size w).2 m'
       = EnsembleTask.model_state w m').
Proof.
  intros Hid.
  destruct (train_single_model_valid self train_config model_id rank
              world_size w Hid)
    as (m & train_iter & dh1 & eval_iter & dh2 & Hm & Htrain & Heval & ->).
  exists m, train_iter, dh1, eval_iter, dh2. simpl.
  split_and!; [done..| | |].
  - by rewrite fn_lookup_insert.
  - intros m' Hne. by rewrite fn_lookup_insert_ne.
  - intros Hnd j m' Hj Hm'. rewrite fn_lookup_insert_ne; [done|].
    intros <-. apply Hj. by eapply NoDup_lookup.
Qed.

(** C9. For a valid [model_id], [train_single_model] returns the very value
    the trainer's [train_single_model] call returns; and a call that omits
    [rank] and [world_size] is the call with [rank = 0] and
    [world_size = 1]: the training iterator it asks for is that of the
    partition (0, 1). *)
Theorem train_single_model_returns_trainer_value (self : EnsembleTask.Self)
    (train_config : TrainConfig) (model_id : Z) (rank world_size : option Z) w :
  (0 ≤ model_id < Z.of_nat (length (EnsembleTask.models self)))%Z →
  (∃ m,
     EnsembleTask.models self !! Z.to_nat model_id = Some m ∧
     (train_single_model self train_config model_id rank world_size w).1
     = Ok (EnsembleTask.returned
             (trainer_train_single_model (EnsembleTask.trainer w)
                (get_train_iter (EnsembleTask.data_handler w)
                   (default 0%Z rank) (default 1%Z world_size)).1
                (get_eval_iter
                   (get_train_iter (EnsembleTask.data_handler w)
                      (default 0%Z rank) (default 1%Z world_size)).2).1
                (EnsembleTask.model_state w m)
                (EnsembleTask.metric_reporter w) train_config
                (EnsembleTask.optimizer w) (EnsembleTask.lr_scheduler w)))) ∧
  train_single_model self train_config model_id None None w
    = train_single_model self train_config model_id (Some 0%Z) (Some 1%Z) w ∧
  ∃ rest,
    EnsembleTask.calls
      (train_single_model self train_config model_id None None w).2
    = EnsembleTask.calls w ++ EnsembleTask.Call_get_train_iter 0 1 :: rest.
Proof.
  intros Hid. split_and!.
  - destruct (train_single_model_valid self train_config model_id rank
                world_size w Hid)
      as (m & train_iter & dh1 & eval_iter & dh2 & Hm & Htrain & Heval & ->).
    exists m. split; [done|]. simpl. rewrite Htrain. simpl. by rewrite Heval.
  - done.
  - destruct (train_single_model_valid self train_config model_id None None
                w Hid)
      as (m & train_iter & dh1 & eval_iter & dh2 & Hm & Htrain & Heval & ->).
    simpl. by eexists.
Qed.
End ensemble.

(** On the counting ensemble, index 3 (one past the end) and index -1 (which
    plain list indexing would accept) are rejected and the world is as
    before. *)
Lemma train_single_model_rejects_model_id_witness :
  Counting.train_single_model Counting.self 5 3 None None Counting.world
    = (Err AssertionError, Counting.world) ∧
  Counting.train_single_model Counting.self 5 (-1) (Some 2%Z) (Some 4%Z)
    Counting.world
    = (Err AssertionError, Counting.world).
Proof.
  split.
  - apply (train_single_model_rejects_model_id
             Counting.get_train_iter Counting.get_eval_iter
             Counting.trainer_train_single_model
             Counting.self 5 3 None None Counting.world).
    simpl. lia.
  - apply (train_single_model_rejects_model_id
             Counting.get_train_iter Counting.get_eval_iter
             Counting.trainer_train_single_model
             Counting.self 5 (-1) (Some 2%Z) (Some 4%Z) Counting.world).
    simpl. lia.
Defined.

(** On the counting ensemble, training index 1 on partition (2, 4) makes the
    three calls, moves sub-model 11 from state 7 to 8 and leaves 10 and 12
    in state 7. *)
Lemma train_single_model_trains_one_model_witness :
  EnsembleTask.calls
    (Counting.train_single_model Counting.self 5 1 (Some 2%Z) (Some 4%Z)
       Counting.world).2
  = [EnsembleTask.Call_get_train_iter 2 4;
     EnsembleTask.Call_get_eval_iter;
     EnsembleTask.Call_train_single_model (2%Z, 4%Z) tt 11 5] ∧
  EnsembleTask.model_state
    (Counting.train_single_model Counting.self 5 1 (Some 2%Z) (Some 4%Z)
       Counting.world).2 11 = 8 ∧
  EnsembleTask.model_state
    (Counting.train_single_model Counting.self 5 1 (Some 2%Z) (Some 4%Z)
       Counting.world).2 10 = 7 ∧
  EnsembleTask.model_state
    (Counting.train_single_model Counting.self 5 1 (Some 2%Z) (Some 4%Z)
       Counting.world).2 12 = 7.
Proof.
  destruct (train_single_model_trains_one_model
              Counting.get_train_iter Counting.get_eval_iter
              Counting.trainer_train_single_model
              Counting.self 5 1 (Some 2%Z) (Some 4%Z) Counting.world)
    as (m & train_iter & dh1 & eval_iter & dh2 & Hm & Htrain & Heval
        & Hcalls & Htrained & Hframe & _).
  { simpl. lia. }
  injection Hm as <-. injection Htrain as <- <-. injection Heval as <- <-.
  split_and!.
  - exact Hcalls.
  - exact Htrained.
  - apply Hframe. lia.
  - apply Hframe. lia.
Defined.

(** On the counting ensemble, the call returns the trainer's value (old
    state 7 plus configuration 5), and without [rank] and [world_size] it
    asks for the partition (0, 1). *)
Lemma train_single_model_returns_trainer_value_witness :
  (Counting.train_single_model Counting.self 5 1 None None Counting.world).1
    = Ok 12 ∧
  Counting.train_single_model Counting.self 5 1 None None Counting.world
    = Counting.train_single_model Counting.self 5 1 (Some 0%Z) (Some 1%Z)
        Counting.world.
Proof.
  destruct (train_single_model_returns_trainer_value
              Counting.get_train_iter Counting.get_eval_iter
              Counting.trainer_train_single_model
              Counting.self 5 1 None None Counting.world)
    as ((m & Hm & Hret) & Hdefault & _).
  { simpl. lia. }
  injection Hm as <-. split; [exact Hret|exact Hdefault].
Defined.

(** ** Task configuration defaults *)

Section config.
Import TaskConfig.
Variable conforms : Value → string → bool.
Variable inherited : list FieldDecl.
Implicit Types (fs : list FieldDecl) (kwargs : gmap string Value).

Local Abbreviation construct := (TaskConfig.construct conforms inherited).
Local Abbreviation field_value := (TaskConfig.field_value conforms).
Local Abbreviation all_fields := (TaskConfig.all_fields inherited).
Local Abbreviation base_shadowed := (TaskConfig.base_shadowed inherited).

Lemma fields_NoDup (c : ConfigClass) : NoDup (field_name <$> fields c).
Proof. destruct c; compute_done. Qed.

Lemma required_fields_spec (c : ConfigClass) (n : string) :
  n ∈ required_fields c ↔
  ∃ f, f ∈ fields c ∧ field_name f = n ∧ field_default f = None.
Proof.
  unfold required_fields. rewrite list_elem_of_fmap. split.
  - intros (f & -> & Hf). apply list_elem_of_filter in Hf as [? ?]. eauto.
  - intros (f & Hf & <- & Hd). exists f. split; [done|].
    by apply list_elem_of_filter.
Qed.

Lemma field_table_lookup fs (n : string) (f : FieldDecl) :
  field_table fs !! n = Some f → f ∈ fs ∧ field_name f = n.
Proof.
  unfold field_table. intros Hf. apply elem_of_list_to_map_2 in Hf.
  apply list_elem_of_fmap in Hf as (g & [= -> ->] & Hg). done.
Qed.

Lemma field_table_None fs (n : string) :
  field_table fs !! n = None ↔ n ∉ field_name <$> fs.
Proof.
  unfold field_table. rewrite <-not_elem_of_list_to_map.
  by rewrite <-list_fmap_compose.
Qed.

Lemma field_table_own (c : ConfigClass) (f : FieldDecl) :
  f ∈ fields c → field_table (fields c) !! field_name f = Some f.
Proof.
  intros Hf. unfold field_table. apply elem_of_list_to_map_1.
  - rewrite <-list_fmap_compose. apply fields_NoDup.
  - apply list_elem_of_fmap. by exists f.
Qed.

Lemma all_fields_own (c : ConfigClass) (f : FieldDecl) :
  f ∈ fields c → all_fields c !! field_name f = Some f.
Proof.
  intros Hf. unfold TaskConfig.all_fields.
  apply lookup_union_Some_l. by apply field_table_own.
Qed.

(** A field of a class is one of its own declarations, or one of the base
    class under a name the class does not declare. *)
Lemma all_fields_lookup (c : ConfigClass) (n : string) (f : FieldDecl) :
  all_fields c !! n = Some f →
  field_name f = n ∧
  (f ∈ fields c ∨ ((n ∉ field_name <$> fields c) ∧ f ∈ inherited)).
Proof.
  unfold TaskConfig.all_fields. intros Hf.
  apply lookup_union_Some_raw in Hf as [Hown|[Hnone Hinh]].
  - apply field_table_lookup in Hown as [? ?]. auto.
  - apply field_table_lookup in Hinh as [? ?].
    apply field_table_None in Hnone. auto.
Qed.

(** The constructor's result, when there is one. *)
Lemma construct_Some (c : ConfigClass) kwargs cfg :
  construct c kwargs = Some cfg →
  ∀ f, f ∈ fields c → cfg !! field_name f = field_value kwargs f.
Proof.
  unfold TaskConfig.construct. case_decide; [|done]. intros [= <-] f Hf.
  by rewrite lookup_omap, (all_fields_own c f Hf).
Qed.

(** Construction succeeds exactly when every keyword argument names a field
    and has an acceptable shape for it, and every field the class declares
    without a default is supplied. *)
Lemma construct_is_Some (c : ConfigClass) kwargs :
  base_shadowed c →
  is_Some (construct c kwargs) ↔
  (∀ n v, kwargs !! n = Some v →
          ∃ f, all_fields c !! n = Some f ∧ conforms v (annotation f) = true) ∧
  (∀ n, n ∈ required_fields c → is_Some (kwargs !! n)).
Proof.
  intros Hbase. unfold TaskConfig.construct. split.
  - case_decide as Hok; [|by intros [? [=]]]. intros _.
    destruct Hok as [Hdom Hall]. split.
    + intros n v Hn.
      assert (n ∈ dom (all_fields c)) as Hin
        by (apply Hdom, elem_of_dom; by eexists).
      apply elem_of_dom in Hin as [f Hf]. exists f. split; [done|].
      destruct (all_fields_lookup c n f Hf) as [Hname _].
      destruct (Hall n f Hf) as [w Hw]. unfold TaskConfig.field_value in Hw.
      rewrite Hname, Hn in Hw. by destruct (conforms v (annotation f)).
    + intros n Hn. apply required_fields_spec in Hn as (f & Hf & <- & Hd).
      destruct (Hall _ f (all_fields_own c f Hf)) as [w Hw].
      unfold TaskConfig.field_value in Hw.
      destruct (kwargs !! field_name f) as [v|]; [by eexists|congruence].
  - intros [Hshape Hreq]. rewrite decide_True; [by eexists|]. split.
    + intros n Hn. apply elem_of_dom in Hn as [v Hv].
      destruct (Hshape n v Hv) as (f & Hf & _). apply elem_of_dom. by eexists.
    + intros n f Hf. unfold TaskConfig.field_value.
      destruct (all_fields_lookup c n f Hf) as [Hname Hwhere].
      destruct (kwargs !! field_name f) as [v|] eqn:Hk.
      * rewrite Hname in Hk. destruct (Hshape n v Hk) as (g & Hg & Hconf).
        rewrite Hf in Hg. injection Hg as <-. rewrite Hconf. by eexists.
      * destruct (field_default f) as [d|] eqn:Hd; [by eexists|].
        destruct Hwhere as [Hown|[Hnot Hinh]].
        -- rewrite <-Hk. apply Hreq, required_fields_spec. by exists f.
        -- unfold TaskConfig.base_shadowed in Hbase.
           rewrite Forall_lookup in Hbase.
           apply list_elem_of_lookup in Hinh as [i Hi].
           destruct (Hbase i f Hi) as [Hin|Hsome].
           ++ by rewrite Hname in Hin.
           ++ rewrite Hd in Hsome. by destruct Hsome.
Qed.

(** C7. For every Task Config class of the file, whatever the shape check and
    whatever the base class declares, as long as the base class adds no
    required field of its own: constructing the class without a field that
    is declared with a default gives that field the declared default;
    construction succeeds exactly when every keyword argument names a field
    and has an acceptable shape and the fields declared without a default
    are supplied; and these fields are [model] and [labels] for
    [EnsembleTask], [labels] for [JointTextTask] and for
    [ContextualIntentSlotTask], and none for every other class, so that
    exactly the other classes are constructible with no argument. *)
Theorem task_config_defaults (c : ConfigClass) :
  base_shadowed c →
  (∀ kwargs f d,
     f ∈ fields c → field_default f = Some d →
     kwargs !! field_name f = None →
     (∀ n v, kwargs !! n = Some v →
             ∃ g, all_fields c !! n = Some g ∧ conforms v (annotation g) = true) →
     (∀ n, n ∈ required_fields c → is_Some (kwargs !! n)) →
     ∃ cfg, construct c kwargs = Some cfg ∧ cfg !! field_name f = Some d) ∧
  (∀ kwargs,
     is_Some (construct c kwargs) ↔
     (∀ n v, kwargs !! n = Some v →
             ∃ g, all_fields c !! n = Some g ∧ conforms v (annotation g) = true) ∧
     (∀ n, n ∈ required_fields c → is_Some (kwargs !! n))) ∧
  required_fields c = documented_required c ∧
  (is_Some (construct c ∅) ↔ documented_required c = []).
Proof.
  intros Hbase. split_and!.
  - intros kwargs f d Hf Hd Hk Hshape Hreq.
    destruct (proj2 (construct_is_Some c kwargs Hbase) (conj Hshape Hreq))
      as [cfg Hcfg].
    exists cfg. split; [done|]. rewrite (construct_Some c kwargs cfg Hcfg f Hf).
    unfold TaskConfig.field_value. by rewrite Hk.
  - intros kwargs. by apply construct_is_Some.
  - by destruct c.
  - rewrite (construct_is_Some c ∅ Hbase).
    assert (required_fields c = documented_required c) as <- by by destruct c.
    split.
    + intros [_ Hreq]. destruct (required_fields c) as [|n ns]; [done|].
      destruct (Hreq n) as [v Hv]; [by left|]. by rewrite lookup_empty in Hv.
    + intros ->. split; [by intros n v; rewrite lookup_empty|].
      intros n Hn. by apply elem_of_nil in Hn.
Qed.

End config.

(** Discharges [base_shadowed] for a concrete base class whose fields the
    class declares again. *)
Ltac base_shadowed_concrete :=
  unfold TaskConfig.base_shadowed;
  repeat (first [ apply Forall_nil_2 | apply Forall_cons_2 ]);
  left; compute_done.

(** With the sample shape check and the five-component base class: the two
    defaults the specification names (an omitted [trainer] is
    [Trainer.Config()] for [DocClassificationTask], which needs no argument,
    and [EnsembleTrainer.Config()] for [EnsembleTask], given its [model] and
    [labels]); [EnsembleTask] cannot be built without arguments; and a
    trainer of another shape is rejected. *)
Lemma task_config_defaults_witness :
  (∃ cfg, TaskConfig.construct TaskConfig.mentions TaskConfig.five_components
            TaskConfig.DocClassificationTask_Config ∅ = Some cfg ∧
          cfg !! "trainer" = Some (TaskConfig.Construct "Trainer.Config")) ∧
  (∃ cfg, TaskConfig.construct TaskConfig.mentions TaskConfig.five_components
            TaskConfig.EnsembleTask_Config
            (<["model" := TaskConfig.Construct "BaggingDocEnsemble.Config"]>
               (<["labels" := TaskConfig.Supplied "List[TargetConfigBase]"]> ∅))
            = Some cfg ∧
          cfg !! "trainer" = Some (TaskConfig.Construct "EnsembleTrainer.Config")) ∧
  TaskConfig.construct TaskConfig.mentions TaskConfig.five_components
    TaskConfig.EnsembleTask_Config ∅ = None ∧
  TaskConfig.construct TaskConfig.mentions TaskConfig.five_components
    TaskConfig.DocClassificationTask_Config
    (<["trainer" := TaskConfig.Construct "HogwildTrainer.Config"]> ∅) = None.
Proof.
  destruct (task_config_defaults TaskConfig.mentions TaskConfig.five_components
              TaskConfig.DocClassificationTask_Config)
    as (Hdoc & Hdoc_ok & _ & _); [base_shadowed_concrete|].
  destruct (task_config_defaults TaskConfig.mentions TaskConfig.five_components
              TaskConfig.EnsembleTask_Config)
    as (Hens & _ & _ & Hens_empty); [base_shadowed_concrete|].
  split_and!.
  - apply (Hdoc ∅ (TaskConfig.defaulted "trainer" "Trainer.Config")).
    + compute_done.
    + reflexivity.
    + reflexivity.
    + intros n v Hn. by rewrite lookup_empty in Hn.
    + intros n Hn. by apply elem_of_nil in Hn.
  - apply (Hens _ (TaskConfig.defaulted "trainer" "EnsembleTrainer.Config")).
    + compute_done.
    + reflexivity.
    + reflexivity.
    + intros n v Hn.
      apply lookup_insert_Some in Hn as [[<- <-]|[_ Hn]].
      { eexists. split; reflexivity. }
      apply lookup_insert_Some in Hn as [[<- <-]|[_ Hn]].
      { eexists. split; reflexivity. }
      by rewrite lookup_empty in Hn.
    + intros n Hn.
      apply elem_of_cons in Hn as [->|Hn]; [by eexists|].
      apply elem_of_cons in Hn as [->|Hn]; [by eexists|].
      by apply elem_of_nil in Hn.
  - apply eq_None_not_Some. intros Hsome.
    apply Hens_empty in Hsome. discriminate Hsome.
  - apply eq_None_not_Some. intros Hsome.
    apply Hdoc_ok in Hsome as [Hshape _].
    destruct (Hshape "trainer" _ (lookup_insert_eq _ _ _)) as (g & Hg & Hconf).
    vm_compute in Hg. injection Hg as <-. vm_compute in Hconf.
    discriminate Hconf.
Defined.


(** * Further properties of the formatters *)

(** ** Where document formatting stops *)

Section doc_format_more.
Context {Score : Type}.
Implicit Types (names : list string) (pairs : list (Z * list Score)).

Lemma doc_format_loop_None names pairs :
  outcome (DocClassificationTask.format_loop names pairs) = None →
  Forall (λ ps, valid_index names ps.1) pairs.
Proof.
  induction pairs as [|[p s] pairs IH]; simpl; [constructor|].
  destruct (list_getitem names p) as [name|e] eqn:Hget; simpl; [|done].
  intros Hout. constructor; [|by apply IH].
  by apply list_getitem_Ok in Hget as [? _].
Qed.

(** The loop delivers the records of the pairs that precede the first
    invalid index, and then fails. *)
Lemma doc_format_loop_first_invalid names pairs (p : Z) (s : list Score)
    (rest : list (Z * list Score)) :
  Forall (λ ps, valid_index names ps.1) pairs →
  ¬ valid_index names p →
  yielded (DocClassificationTask.format_loop names (pairs ++ (p, s) :: rest))
    = yielded (DocClassificationTask.format_loop names pairs) ∧
  outcome (DocClassificationTask.format_loop names (pairs ++ (p, s) :: rest))
    = Some IndexError.
Proof.
  intros Hgood Hbad. induction Hgood as [|[q t] pairs Hq _ IH]; simpl.
  - destruct (list_getitem names p) as [name|e] eqn:Hget; simpl.
    + by apply list_getitem_Ok in Hget as [? _].
    + by apply list_getitem_Err in Hget as [-> _].
  - destruct (list_getitem_valid names q Hq) as (x & -> & _). simpl.
    destruct IH as [-> ->]. done.
Qed.
End doc_format_more.

Lemma zip_split_at {A B : Type} (l : list A) (k : list B) (i : nat) (x : A) (y : B) :
  l !! i = Some x → k !! i = Some y →
  zip l k = zip (take i l) (take i k) ++ (x, y) :: zip (drop (S i) l) (drop (S i) k).
Proof.
  intros Hl Hk.
  rewrite <-(take_drop_middle l i x Hl) at 1.
  rewrite <-(take_drop_middle k i y Hk) at 1.
  rewrite zip_with_app; [done|].
  rewrite !length_take. apply lookup_lt_Some in Hl, Hk. lia.
Qed.

(** X1. [DocClassificationTask.format_prediction] ends normally exactly when
    the prediction of every zipped (prediction, score) pair is a valid index
    into the vocabulary; the only exception it can end with is
    [IndexError]. *)
Theorem doc_format_prediction_outcome {Score TokenRange : Type}
    (predictions : list Z) (scores : list (list Score))
    (context : BatchContext TokenRange) (target_meta : TargetMeta) :
  (outcome (DocClassificationTask.format_prediction
              predictions scores context target_meta) = None ↔
   Forall (λ ps, valid_index (itos (vocab target_meta)) ps.1)
          (zip predictions scores)) ∧
  (∀ e, outcome (DocClassificationTask.format_prediction
                   predictions scores context target_meta) = Some e →
        e = IndexError).
Proof.
  unfold DocClassificationTask.format_prediction. split; [split|].
  - apply doc_format_loop_None.
  - intros Hall. by apply doc_format_loop_valid.
  - intros e He. by apply doc_format_loop_raise in He as [-> _].
Qed.

(** X2. The generator is lazy: when position [k] holds the first prediction
    that is not a valid vocabulary index (and has a score vector), the
    consumer receives exactly the [k] records of the positions before it,
    the same records as for the inputs cut to length [k], and then
    [IndexError]. *)
Theorem doc_format_prediction_first_invalid {Score TokenRange : Type}
    (predictions : list Z) (scores : list (list Score))
    (context : BatchContext TokenRange) (target_meta : TargetMeta)
    (k : nat) (p : Z) (s : list Score) :
  predictions !! k = Some p →
  scores !! k = Some s →
  ¬ valid_index (itos (vocab target_meta)) p →
  (∀ i q, i < k → predictions !! i = Some q →
          valid_index (itos (vocab target_meta)) q) →
  outcome (DocClassificationTask.format_prediction
             predictions scores context target_meta) = Some IndexError ∧
  length (yielded (DocClassificationTask.format_prediction
                     predictions scores context target_meta)) = k ∧
  yielded (DocClassificationTask.format_prediction
             predictions scores context target_meta)
    = yielded (DocClassificationTask.format_prediction
                 (take k predictions) (take k scores) context target_meta) ∧
  outcome (DocClassificationTask.format_prediction
             (take k predictions) (take k scores) context target_meta) = None.
Proof.
  intros Hp Hs Hbad Hbefore. unfold DocClassificationTask.format_prediction.
  assert (Forall (λ ps : Z * list Score,
                    valid_index (itos (vocab target_meta)) ps.1)
                 (zip (take k predictions) (take k scores))) as Hgood.
  { apply Forall_lookup. intros i [q t] Hi.
    apply lookup_zip_Some in Hi as [Hq _].
    apply lookup_take_Some in Hq as [Hq Hik]. simpl. by eapply Hbefore. }
  rewrite (zip_split_at predictions scores k p s Hp Hs).
  destruct (doc_format_loop_first_invalid (itos (vocab target_meta)) _ p s
              (zip (drop (S k) predictions) (drop (S k) scores)) Hgood Hbad)
    as [-> ->].
  destruct (doc_format_loop_valid _ _ Hgood) as [Hout Hlen].
  split_and!; [done| |done..].
  rewrite Hlen, length_zip, !length_take.
  apply lookup_lt_Some in Hp, Hs. lia.
Qed.

(** Three predictions over ["POS","NEG"], the second one out of range: one
    record is delivered before the failure. *)
Lemma doc_format_prediction_first_invalid_witness :
  DocClassificationTask.format_prediction
    [1%Z; 2%Z; 0%Z] [[0.9; 0.1]; [0.5; 0.5]; [0.2; 0.8]]%float
    (∅ : BatchContext (Z * Z)) {| vocab := {| itos := ["POS"; "NEG"] |} |}
  = Yield {| DocClassificationTask.prediction := "NEG";
             DocClassificationTask.score :=
               dict_comprehension [("POS", 0.9%float); ("NEG", 0.1%float)] |}
          (Raise IndexError) ∧
  length (yielded (DocClassificationTask.format_prediction
                     [1%Z; 2%Z; 0%Z] [[0.9; 0.1]; [0.5; 0.5]; [0.2; 0.8]]%float
                     (∅ : BatchContext (Z * Z))
                     {| vocab := {| itos := ["POS"; "NEG"] |} |})) = 1.
Proof.
  split; [reflexivity|].
  apply (doc_format_prediction_first_invalid
           [1%Z; 2%Z; 0%Z] [[0.9; 0.1]; [0.5; 0.5]; [0.2; 0.8]]%float
           (∅ : BatchContext (Z * Z)) {| vocab := {| itos := ["POS"; "NEG"] |} |}
           1 2%Z [0.5; 0.5]%float).
  - reflexivity.
  - reflexivity.
  - unfold valid_index. simpl. lia.
  - intros [|i] q Hi Hq; [|lia]. injection Hq as <-.
    unfold valid_index. simpl. lia.
Defined.

(** ** Score vectors that do not match the vocabulary *)

Lemma zip_take_length_l {A B : Type} (l : list A) (k : list B) :
  zip l (take (length l) k) = zip l k.
Proof. apply zip_with_take_r. Qed.

(** X3. The score mapping of a document record is built by a zip of the
    vocabulary with the score vector, so a mismatch goes unnoticed: the keys
    are the names of the first [len(score)] vocabulary entries only, the
    mapping has at most [min(len(vocabulary), len(score))] entries, and
    scores beyond the vocabulary's length are ignored. *)
Theorem doc_score_map_truncation {Score TokenRange : Type}
    (predictions : list Z) (scores : list (list Score))
    (context : BatchContext TokenRange) (target_meta : TargetMeta)
    (i : nat) (r : DocClassificationTask.Record_ Score) :
  yielded (DocClassificationTask.format_prediction
             predictions scores context target_meta) !! i = Some r →
  ∃ s, scores !! i = Some s ∧
    dom (DocClassificationTask.score r)
      = list_to_set (take (length s) (itos (vocab target_meta))) ∧
    size (DocClassificationTask.score r)
      ≤ length (itos (vocab target_meta)) `min` length s ∧
    DocClassificationTask.score r
      = dict_comprehension
          (zip (itos (vocab target_meta))
               (take (length (itos (vocab target_meta))) s)) ∧
    (∀ n, n ∉ take (length s) (itos (vocab target_meta)) →
          DocClassificationTask.score r !! n = None).
Proof.
  unfold DocClassificationTask.format_prediction. intros Hr.
  apply doc_format_loop_lookup in Hr as (p & s & Hps & _ & Hscore).
  apply lookup_zip_Some in Hps as [_ Hs]. exists s.
  split_and!; [done|..].
  - by rewrite Hscore, score_map_dom.
  - rewrite <-size_dom, Hscore, score_map_dom.
    etrans; [apply size_list_to_set_le|]. rewrite length_take. lia.
  - by rewrite Hscore, zip_take_length_l.
  - intros n Hnin. apply not_elem_of_dom.
    rewrite Hscore, score_map_dom. by rewrite elem_of_list_to_set.
Qed.

(** A three-name vocabulary against two scores: the third name has no
    entry. *)
Lemma doc_score_map_truncation_witness :
  ∃ r, yielded (DocClassificationTask.format_prediction
                  [2%Z] [[0.5; 0.25]%float] (∅ : BatchContext (Z * Z))
                  {| vocab := {| itos := ["A"; "B"; "C"] |} |}) !! 0 = Some r ∧
       DocClassificationTask.prediction r = "C" ∧
       DocClassificationTask.score r !! "C" = None ∧
       size (DocClassificationTask.score r) ≤ 2.
Proof.
  eexists. split; [reflexivity|]. split; [reflexivity|].
  destruct (doc_score_map_truncation
              [2%Z] [[0.5; 0.25]%float] (∅ : BatchContext (Z * Z))
              {| vocab := {| itos := ["A"; "B"; "C"] |} |} 0 _ eq_refl)
    as (s & Hs & _ & Hsize & _ & Hmissing).
  injection Hs as <-. split; [|exact Hsize].
  apply (Hmissing "C"). simpl. intros Hin. apply elem_of_cons in Hin as [?|Hin]; [done|].
  apply elem_of_cons in Hin as [?|Hin]; [done|]. by apply elem_of_nil in Hin.
Defined.

(** ** What word tagging yields *)

(** X4. Every record of every sequence yielded by
    [WordTaggingTask.format_prediction] is built from the token at the same
    position of the same example: its "prediction" is the vocabulary name at
    that token's predicted index and its "token_range" is that token's entry
    in the context's token-range field; the sequence has one record per
    zipped token, that is [min(len(prediction), len(score),
    len(token_ranges))] records. *)
Theorem word_format_prediction_records {Score TokenRange : Type}
    (predictions : list (list Z)) (scores : list (list (list Score)))
    (context : BatchContext TokenRange) (target_meta : TargetMeta)
    (i : nat) (rs : list (WordTaggingTask.Record_ Score TokenRange)) :
  yielded (WordTaggingTask.format_prediction
             predictions scores context target_meta) !! i = Some rs →
  ∃ prediction score all_token_ranges token_ranges,
    predictions !! i = Some prediction ∧
    scores !! i = Some score ∧
    context !! DatasetFieldName.TOKEN_RANGE = Some all_token_ranges ∧
    all_token_ranges !! i = Some token_ranges ∧
    length rs
      = (length prediction `min` length score) `min` length token_ranges ∧
    ∀ j r, rs !! j = Some r →
      ∃ word_pred,
        prediction !! j = Some word_pred ∧
        itos (vocab target_meta)
          !! index_position (itos (vocab target_meta)) word_pred
          = Some (WordTaggingTask.prediction r) ∧
        token_ranges !! j = Some (WordTaggingTask.token_range r).
Proof.
  unfold WordTaggingTask.format_prediction.
  destruct (context !! DatasetFieldName.TOKEN_RANGE) as [trs|]; [|done].
  intros Hrs. apply word_format_loop_lookup in Hrs as (p & s & tr & Hex & Hw).
  apply lookup_zip3_Some in Hex as (Hp & Hs & Htr).
  apply word_records_Ok in Hw as [Hlen Hrec].
  exists p, s, trs, tr. split_and!; [done..| |].
  - by rewrite Hlen, length_zip3.
  - intros j r Hr.
    destruct (Hrec j r Hr) as (wp & ws & t & Hword & Hget & _ & <-).
    apply lookup_zip3_Some in Hword as (Hwp & _ & Ht).
    apply list_getitem_Ok in Hget as [_ Hname]. by exists wp.
Qed.

(** One example of two tokens tagged 1 and 0 over ["O","B"]. *)
Lemma word_format_prediction_records_witness :
  ∃ rs, yielded (WordTaggingTask.format_prediction
                   [[1%Z; 0%Z]] [[[0.5; 0.5]; [0.75; 0.25]]%float]
                   {[ DatasetFieldName.TOKEN_RANGE := [[(0%Z, 3%Z); (4%Z, 8%Z)]] ]}
                   {| vocab := {| itos := ["O"; "B"] |} |}) !! 0 = Some rs ∧
        WordTaggingTask.prediction <$> rs = ["B"; "O"] ∧
        length rs = 2.
Proof.
  eexists. split; [reflexivity|]. split; [reflexivity|].
  match goal with |- length ?rs = _ =>
    destruct (word_format_prediction_records
                [[1%Z; 0%Z]] [[[0.5; 0.5]; [0.75; 0.25]]%float]
                {[ DatasetFieldName.TOKEN_RANGE := [[(0%Z, 3%Z); (4%Z, 8%Z)]] ]}
                {| vocab := {| itos := ["O"; "B"] |} |} 0 rs)
      as (p & s & trs & tr & Hp & Hs & Htrs & Htr & Hlen & _);
      [reflexivity|]
  end.
  injection Hp as <-. injection Hs as <-.
  rewrite lookup_singleton_eq in Htrs. injection Htrs as <-.
  simpl in Htr. injection Htr as <-. exact Hlen.
Defined.

(** ** Where word tagging stops *)

Section word_format_more.
Context {Score TokenRange : Type}.
Implicit Types (names : list string)
  (words : list (Z * list Score * TokenRange))
  (examples rest : list (list Z * list (list Score) * list TokenRange)).

Lemma word_records_Ok_valid names words rs :
  WordTaggingTask.word_records names words = Ok rs →
  Forall (λ w, valid_index names w.1.1) words.
Proof.
  revert rs. induction words as [|[[wp ws] tr] words IH]; intros rs; simpl;
    [constructor|].
  destruct (list_getitem names wp) as [name|e] eqn:Hget; [|done].
  destruct (WordTaggingTask.word_records names words) as [rs'|e]; [|done].
  intros _. constructor; [|by eapply IH].
  by apply list_getitem_Ok in Hget as [? _].
Qed.

Lemma word_records_invalid names words :
  Exists (λ w, ¬ valid_index names w.1.1) words →
  WordTaggingTask.word_records names words = Err IndexError.
Proof.
  induction 1 as [[[wp ws] tr] words Hbad|[[wp ws] tr] words _ IH]; simpl.
  - destruct (list_getitem names wp) as [name|e] eqn:Hget.
    + by apply list_getitem_Ok in Hget as [? _].
    + by apply list_getitem_Err in Hget as [-> _].
  - destruct (list_getitem names wp) as [name|e] eqn:Hget.
    + by rewrite IH.
    + by apply list_getitem_Err in Hget as [-> _].
Qed.

Lemma word_format_loop_None names examples :
  outcome (WordTaggingTask.format_loop names examples) = None →
  Forall (λ ex, Forall (λ w, valid_index names w.1.1)
                       (zip3 ex.1.1 ex.1.2 ex.2)) examples.
Proof.
  induction examples as [|[[p s] trs] examples IH]; simpl; [constructor|].
  destruct (WordTaggingTask.word_records names (zip3 p s trs)) as [rs|e] eqn:Hw;
    simpl; [|done].
  intros Hout. constructor; [|by apply IH]. simpl.
  by eapply word_records_Ok_valid.
Qed.

(** An example with an invalid index yields nothing of its own, whichever
    of its tokens the index belongs to. *)
Lemma word_format_loop_first_invalid names examples
    (p : list Z) (s : list (list Score)) (trs : list TokenRange) rest :
  Forall (λ ex, Forall (λ w, valid_index names w.1.1)
                       (zip3 ex.1.1 ex.1.2 ex.2)) examples →
  Exists (λ w, ¬ valid_index names w.1.1) (zip3 p s trs) →
  yielded (WordTaggingTask.format_loop names (examples ++ (p, s, trs) :: rest))
    = yielded (WordTaggingTask.format_loop names examples) ∧
  outcome (WordTaggingTask.format_loop names (examples ++ (p, s, trs) :: rest))
    = Some IndexError.
Proof.
  intros Hgood Hbad. induction Hgood as [|[[q t] u] examples Hq _ IH]; simpl.
  - by rewrite (word_records_invalid _ _ Hbad).
  - simpl in Hq. destruct (word_records_valid names _ Hq) as [rs ->]. simpl.
    destruct IH as [-> ->]. done.
Qed.
End word_format_more.

(** X5. Word tagging is all-or-nothing per example. Given the token-range
    field, [WordTaggingTask.format_prediction] ends normally exactly when
    every predicted index of every zipped token is valid; and when example
    [k] is the first with an invalid index among its zipped tokens, the
    consumer receives the [k] complete sequences of the examples before it,
    nothing of example [k] (not even the records of its earlier tokens), and
    then [IndexError]. *)
Theorem word_format_prediction_all_or_nothing {Score TokenRange : Type}
    (predictions : list (list Z)) (scores : list (list (list Score)))
    (context : BatchContext TokenRange) (target_meta : TargetMeta)
    (all_token_ranges : list (list TokenRange)) :
  context !! DatasetFieldName.TOKEN_RANGE = Some all_token_ranges →
  (outcome (WordTaggingTask.format_prediction
              predictions scores context target_meta) = None ↔
   Forall (λ ex, Forall (λ w, valid_index (itos (vocab target_meta)) w.1.1)
                        (zip3 ex.1.1 ex.1.2 ex.2))
          (zip3 predictions scores all_token_ranges)) ∧
  (∀ k prediction score token_ranges,
     predictions !! k = Some prediction →
     scores !! k = Some score →
     all_token_ranges !! k = Some token_ranges →
     Exists (λ w, ¬ valid_index (itos (vocab target_meta)) w.1.1)
            (zip3 prediction score token_ranges) →
     Forall (λ ex, Forall (λ w, valid_index (itos (vocab target_meta)) w.1.1)
                          (zip3 ex.1.1 ex.1.2 ex.2))
            (take k (zip3 predictions scores all_token_ranges)) →
     outcome (WordTaggingTask.format_prediction
                predictions scores context target_meta) = Some IndexError ∧
     length (yielded (WordTaggingTask.format_prediction
                        predictions scores context target_meta)) = k ∧
     Forall2 (λ rs ex, length rs = length (zip3 ex.1.1 ex.1.2 ex.2))
       (yielded (WordTaggingTask.format_prediction
                   predictions scores context target_meta))
       (take k (zip3 predictions scores all_token_ranges))).
Proof.
  intros Hctx. unfold WordTaggingTask.format_prediction. rewrite Hctx.
  split; [split|].
  - apply word_format_loop_None.
  - intros Hall. by apply word_format_loop_valid.
  - intros k p s tr Hp Hs Htr Hbad Hgood.
    assert (zip3 predictions scores all_token_ranges !! k = Some (p, s, tr))
      as Hk by by apply lookup_zip3_Some.
    rewrite <-(take_drop_middle _ k _ Hk) at 1 2 3.
    destruct (word_format_loop_first_invalid (itos (vocab target_meta)) _ p s tr
                (drop (S k) (zip3 predictions scores all_token_ranges))
                Hgood Hbad) as [-> ->].
    destruct (word_format_loop_valid _ _ Hgood) as [_ Hlen].
    split_and!; [done| |].
    + rewrite Hlen, length_take. apply lookup_lt_Some in Hk. lia.
    + apply Forall2_same_length_lookup_2; [done|].
      intros i rs [[q t] u] Hrs Hex.
      apply word_format_loop_lookup in Hrs as (q' & t' & u' & Hex' & Hw).
      rewrite Hex in Hex'. injection Hex' as <- <- <-.
      by apply word_records_Ok in Hw as [? _].
Qed.

(** Two examples over ["O","B"]; the second token of the second example is
    tagged 7: the first example's sequence is delivered, nothing of the
    second. *)
Lemma word_format_prediction_all_or_nothing_witness :
  outcome (WordTaggingTask.format_prediction
             [[1%Z]; [0%Z; 7%Z]] [[[0.5]]; [[0.5]; [0.5]]]%float
             {[ DatasetFieldName.TOKEN_RANGE :=
                  [[(0%Z, 3%Z)]; [(0%Z, 2%Z); (3%Z, 5%Z)]] ]}
             {| vocab := {| itos := ["O"; "B"] |} |}) = Some IndexError ∧
  length (yielded (WordTaggingTask.format_prediction
                     [[1%Z]; [0%Z; 7%Z]] [[[0.5]]; [[0.5]; [0.5]]]%float
                     {[ DatasetFieldName.TOKEN_RANGE :=
                          [[(0%Z, 3%Z)]; [(0%Z, 2%Z); (3%Z, 5%Z)]] ]}
                     {| vocab := {| itos := ["O"; "B"] |} |})) = 1.
Proof.
  destruct (word_format_prediction_all_or_nothing
              [[1%Z]; [0%Z; 7%Z]] [[[0.5]]; [[0.5]; [0.5]]]%float
              {[ DatasetFieldName.TOKEN_RANGE :=
                   [[(0%Z, 3%Z)]; [(0%Z, 2%Z); (3%Z, 5%Z)]] ]}
              {| vocab := {| itos := ["O"; "B"] |} |}
              [[(0%Z, 3%Z)]; [(0%Z, 2%Z); (3%Z, 5%Z)]])
    as [_ Hfirst]; [reflexivity|].
  destruct (Hfirst 1 [0%Z; 7%Z] [[0.5]; [0.5]]%float [(0%Z, 2%Z); (3%Z, 5%Z)])
    as (Hout & Hlen & _).
  - reflexivity.
  - reflexivity.
  - reflexivity.
  - apply Exists_cons_tl, Exists_cons_hd. unfold valid_index. simpl. lia.
  - forall_concrete.
  - split; [exact Hout|exact Hlen].
Defined.

(** ** How the joint formatter ends *)

(** X6. The joint formatter asks the document formatter first: it ends the
    way [DocClassificationTask.format_prediction] ends, unless
    [WordTaggingTask.format_prediction] ends after strictly fewer records,
    in which case it ends the way that one does. A failure of the formatter
    that would have gone on longer is never seen. *)
Theorem joint_format_prediction_outcome {Score TokenRange : Type}
    (doc_preds : list Z) (word_preds : list (list Z))
    (doc_scores : list (list Score)) (word_scores : list (list (list Score)))
    (context : BatchContext TokenRange)
    (doc_target_meta word_target_meta : TargetMeta) :
  outcome (JointTextTask.format_prediction
             (doc_preds, word_preds) (doc_scores, word_scores) context
             (doc_target_meta, word_target_meta))
  = if decide
         (length (yielded (DocClassificationTask.format_prediction
                             doc_preds doc_scores context doc_target_meta))
          ≤ length (yielded (WordTaggingTask.format_prediction
                               word_preds word_scores context word_target_meta)))
    then outcome (DocClassificationTask.format_prediction
                    doc_preds doc_scores context doc_target_meta)
    else outcome (WordTaggingTask.format_prediction
                    word_preds word_scores context word_target_meta).
Proof. unfold JointTextTask.format_prediction. apply zip_loop_outcome_first. Qed.

(** X7. When the context has no token-range field the joint formatter never
    yields a record, and the missing field is reported only if the document
    formatter produces a first record: with no zipped document pair the call
    ends normally, with a first pair of valid index it raises [KeyError],
    and with a first pair of invalid index it raises [IndexError]. *)
Theorem joint_format_prediction_missing_token_range {Score TokenRange : Type}
    (doc_preds : list Z) (word_preds : list (list Z))
    (doc_scores : list (list Score)) (word_scores : list (list (list Score)))
    (context : BatchContext TokenRange)
    (doc_target_meta word_target_meta : TargetMeta) :
  context !! DatasetFieldName.TOKEN_RANGE = None →
  yielded (JointTextTask.format_prediction
             (doc_preds, word_preds) (doc_scores, word_scores) context
             (doc_target_meta, word_target_meta)) = [] ∧
  (zip doc_preds doc_scores = [] →
   JointTextTask.format_prediction
     (doc_preds, word_preds) (doc_scores, word_scores) context
     (doc_target_meta, word_target_meta) = Stop) ∧
  (∀ p s rest,
     zip doc_preds doc_scores = (p, s) :: rest →
     JointTextTask.format_prediction
       (doc_preds, word_preds) (doc_scores, word_scores) context
       (doc_target_meta, word_target_meta)
     = if decide (valid_index (itos (vocab doc_target_meta)) p)
       then Raise KeyError else Raise IndexError).
Proof.
  intros Hctx.
  unfold JointTextTask.format_prediction, WordTaggingTask.format_prediction,
    DocClassificationTask.format_prediction.
  rewrite Hctx. split_and!.
  - by destruct (DocClassificationTask.format_loop _ _).
  - by intros ->.
  - intros p s rest ->. simpl. case_decide as Hv.
    + by destruct (list_getitem_valid _ p Hv) as (x & -> & _).
    + destruct (list_getitem (itos (vocab doc_target_meta)) p) as [x|e] eqn:Hget.
      * by apply list_getitem_Ok in Hget as [? _].
      * by apply list_getitem_Err in Hget as [-> _].
Qed.

(** With an empty context: no document prediction ends the call normally,
    one valid document prediction raises [KeyError]. *)
Lemma joint_format_prediction_missing_token_range_witness :
  JointTextTask.format_prediction
    ([], [[0%Z]]) ([], [[[0.5%float]]]) (∅ : BatchContext (Z * Z))
    ({| vocab := {| itos := ["A"] |} |}, {| vocab := {| itos := ["B"] |} |})
  = Stop ∧
  JointTextTask.format_prediction
    ([0%Z], [[0%Z]]) ([[0.9%float]], [[[0.5%float]]]) (∅ : BatchContext (Z * Z))
    ({| vocab := {| itos := ["A"] |} |}, {| vocab := {| itos := ["B"] |} |})
  = Raise KeyError.
Proof.
  split.
  - apply (joint_format_prediction_missing_token_range
             [] [[0%Z]] [] [[[0.5%float]]] (∅ : BatchContext (Z * Z))
             {| vocab := {| itos := ["A"] |} |}
             {| vocab := {| itos := ["B"] |} |}); reflexivity.
  - destruct (joint_format_prediction_missing_token_range
                [0%Z] [[0%Z]] [[0.9%float]] [[[0.5%float]]]
                (∅ : BatchContext (Z * Z))
                {| vocab := {| itos := ["A"] |} |}
                {| vocab := {| itos := ["B"] |} |})
      as (_ & _ & Hfirst); [reflexivity|].
    rewrite (Hfirst 0%Z [0.9%float] [] eq_refl).
    apply decide_True. unfold valid_index. simpl. lia.
Defined.

(** * Further properties of ensemble training *)

Section ensemble_more.
Context {Model DataHandler Trainer MetricReporter TrainConfig
         Optimizer Scheduler TrainIter EvalIter TrainResult : Type}.
Variable get_train_iter : DataHandler → Z → Z → TrainIter * DataHandler.
Variable get_eval_iter : DataHandler → EvalIter * DataHandler.
Variable trainer_train_single_model :
  Trainer → TrainIter → EvalIter → Model → MetricReporter → TrainConfig →
  Optimizer → Scheduler →
  @EnsembleTask.Trained Model Trainer MetricReporter Optimizer Scheduler TrainResult.

Local Abbreviation train_single_model :=
  (EnsembleTask.train_single_model
     get_train_iter get_eval_iter trainer_train_single_model).

(** X9. Training two distinct sub-model objects one after the other: the
    second call hands the trainer the second sub-model in the state it had
    before the first call, it leaves the first sub-model in the state the
    first call gave it, every other sub-model object is as at the start,
    and the six collaborator calls appear in order, each call asking for
    its iterators before it trains. *)
Theorem train_single_model_twice (self : EnsembleTask.Self)
    (config_a config_b : TrainConfig) (id_a id_b : Z)
    (rank_a world_size_a rank_b world_size_b : option Z) (m_a m_b : nat) w :
  (0 ≤ id_a < Z.of_nat (length (EnsembleTask.models self)))%Z →
  (0 ≤ id_b < Z.of_nat (length (EnsembleTask.models self)))%Z →
  EnsembleTask.models self !! Z.to_nat id_a = Some m_a →
  EnsembleTask.models self !! Z.to_nat id_b = Some m_b →
  m_a ≠ m_b →
  EnsembleTask.model_state
    (train_single_model self config_a id_a rank_a world_size_a w).2 m_b
    = EnsembleTask.model_state w m_b ∧
  EnsembleTask.model_state
    (train_single_model self config_b id_b rank_b world_size_b
       (train_single_model self config_a id_a rank_a world_size_a w).2).2 m_a
    = EnsembleTask.model_state
        (train_single_model self config_a id_a rank_a world_size_a w).2 m_a ∧
  (∀ m, m ≠ m_a → m ≠ m_b →
     EnsembleTask.model_state
       (train_single_model self config_b id_b rank_b world_size_b
          (train_single_model self config_a id_a rank_a world_size_a w).2).2 m
     = EnsembleTask.model_state w m) ∧
  ∃ train_iter_a eval_iter_a train_iter_b eval_iter_b,
    EnsembleTask.calls
      (train_single_model self config_b id_b rank_b world_size_b
         (train_single_model self config_a id_a rank_a world_size_a w).2).2
    = EnsembleTask.calls w ++
      [EnsembleTask.Call_get_train_iter
         (default 0%Z rank_a) (default 1%Z world_size_a);
       EnsembleTask.Call_get_eval_iter;
       EnsembleTask.Call_train_single_model
         train_iter_a eval_iter_a m_a config_a;
       EnsembleTask.Call_get_train_iter
         (default 0%Z rank_b) (default 1%Z world_size_b);
       EnsembleTask.Call_get_eval_iter;
       EnsembleTask.Call_train_single_model
         train_iter_b eval_iter_b m_b config_b].
Proof.
  intros Ha Hb Hma Hmb Hne.
  destruct (train_single_model_valid get_train_iter get_eval_iter
              trainer_train_single_model self config_a id_a rank_a
              world_size_a w Ha)
    as (m & ti_a & dh1 & ei_a & dh2 & Hm & _ & _ & ->).
  rewrite Hma in Hm. injection Hm as <-.
  match goal with |- context [train_single_model _ _ _ _ _ ?w1] =>
    destruct (train_single_model_valid get_train_iter get_eval_iter
                trainer_train_single_model self config_b id_b rank_b
                world_size_b w1 Hb)
      as (m & ti_b & dh3 & ei_b & dh4 & Hm & _ & _ & ->)
  end.
  rewrite Hmb in Hm. injection Hm as <-. simpl.
  split_and!.
  - by rewrite fn_lookup_insert_ne.
  - by rewrite fn_lookup_insert_ne, fn_lookup_insert.
  - intros m' Hna Hnb. by rewrite !fn_lookup_insert_ne.
  - exists ti_a, ei_a, ti_b, ei_b. by rewrite <-(assoc_L (++)).
Qed.
End ensemble_more.

(** On the counting ensemble, training index 0 and then index 2 leaves
    sub-models 10 and 12 trained once each and 11 untouched. *)
Lemma train_single_model_twice_witness :
  EnsembleTask.model_state
    (Counting.train_single_model Counting.self 6 2 None None
       (Counting.train_single_model Counting.self 5 0 None None
          Counting.world).2).2 10
    = EnsembleTask.model_state
        (Counting.train_single_model Counting.self 5 0 None None
           Counting.world).2 10 ∧
  EnsembleTask.model_state
    (Counting.train_single_model Counting.self 6 2 None None
       (Counting.train_single_model Counting.self 5 0 None None
          Counting.world).2).2 11 = 7.
Proof.
  destruct (train_single_model_twice
              Counting.get_train_iter Counting.get_eval_iter
              Counting.trainer_train_single_model
              Counting.self 5 6 0 2 None None None None 10 12 Counting.world)
    as (_ & Hfirst & Hframe & _).
  - simpl. lia.
  - simpl. lia.
  - reflexivity.
  - reflexivity.
  - lia.
  - split; [exact Hfirst|]. apply (Hframe 11); lia.
Defined.
